(** * FractalBackground: a shallow embedding of [js/fractal.js]

    The development follows the source file top to bottom:

    - [Js]: the JavaScript values the constructor receives as [options], with
      truthiness, [||], member access and optional chaining;
    - [Gl]: the part of the WebGL context the class drives (program object,
      uniform store, command trace, rendered frames);
    - [Page]: the hosting page (document, window, console, clock, listeners)
      and the state-and-exception monad the methods run in;
    - [FractalBackground]: the class, method by method;
    - [Shader]: the fragment program [fsSource], over an abstract GPU float,
      and [Standalone], the fragment program of the script without the class;
    - [Script]: the script without the class ([unnamed/part_000]), statement
      by statement, and [Vertex]: the vertex program and the geometry drawn;
    - theorems about configuration, pointer tracking, start-up failures, the
      frame step and the per-pixel program, then about the life of a
      constructed instance, the script, the two fragment programs and the
      geometry.

    JavaScript numbers are IEEE binary64 values and are modelled by the
    kernel's primitive floats.  The precision of GLSL [highp float] is up to
    the GPU, so the fragment program is written against an interface of float
    operations ([GLFloat]) and every statement about it holds for each
    implementation of that interface. *)

From Stdlib Require Import Floats.PrimFloat Floats.FloatOps Floats.SpecFloat.
From Stdlib Require Uint63.
From Stdlib Require Import QArith Ascii Reals Lra Psatz.
From stdpp Require Import base option list strings gmap.

Set Warnings "-inexact-float,-register-all".
Local Open Scope string_scope.
Local Open Scope list_scope.

(** ** JavaScript values *)

Module Js.

(** The values an [options] argument is built from.  An object literal is a
    finite map from property names to values. *)
Inductive value : Type :=
| VUndefined
| VNull
| VBool (b : bool)
| VNum (x : float)
| VStr (s : string)
| VArr (xs : list value)
| VObj (fields : gmap string value).

(** ToBoolean: [undefined], [null], [false], [+0], [-0], [NaN] and the empty
    string are falsy, everything else (every array and object) is truthy. *)
Definition truthy (v : value) : bool :=
  match v with
  | VUndefined | VNull => false
  | VBool b => b
  | VNum x => negb (is_zero x || is_nan x)
  | VStr s => match s with EmptyString => false | String _ _ => true end
  | VArr _ | VObj _ => true
  end.

(** [a || b]: the left operand when it is truthy, else the right one. *)
Definition or (a b : value) : value := if truthy a then a else b.

(** [a !== b] where [b] is a boolean literal: strict inequality compares
    without conversion, so only the boolean [b] itself is equal to it. *)
Definition strict_ne_bool (a : value) (b : bool) : bool :=
  match a with
  | VBool a' => negb (Bool.eqb a' b)
  | _ => true
  end.

Definition nullish (v : value) : bool :=
  match v with
  | VUndefined | VNull => true
  | _ => false
  end.

(** The property [k] of a value that is neither [undefined] nor [null].  None
    of the names read by the constructor ([colors], [start], [end],
    [interaction], [enabled], [strength], [animation], [speed]) is defined on
    the prototype of a primitive or of an array, so only objects answer. *)
Definition prop (v : value) (k : string) : value :=
  match v with
  | VObj fields => default VUndefined (fields !! k)
  | _ => VUndefined
  end.

(** [v.k]: a TypeError when [v] is [undefined] or [null]. *)
Definition member (v : value) (k : string) : option value :=
  if nullish v then None else Some (prop v k).

(** [v?.k]: [undefined] when [v] is [undefined] or [null]. *)
Definition opt_member (v : value) (k : string) : value :=
  if nullish v then VUndefined else prop v k.

(** A parameter default ([options = {}]) applies to [undefined] only. *)
Definition param_default (v dflt : value) : value :=
  match v with
  | VUndefined => dflt
  | _ => v
  end.

Definition is_array (v : value) : bool :=
  match v with
  | VArr _ => true
  | _ => false
  end.

End Js.
Import Js.

(** ** Resolved configuration ([this.config]) *)

Record Colors := { start : value; end_ : value }.
Record Interaction := { enabled : bool; strength : value }.
Record Animation := { speed : value }.
Record Config := {
  colors : Colors;
  interaction : Interaction;
  animation : Animation
}.

Definition default_start : value :=
  VArr [VNum 0.05; VNum 0.08; VNum 0.12].
Definition default_end : value :=
  VArr [VNum 0.2; VNum 0.5; VNum 0.55].

(** The object literal assigned to [this.config] (constructor, lines 26-38).
    Each initialiser reads [options.<group>] and then chains optionally, so
    the evaluation throws exactly when [options] is [null]; [None] is that
    TypeError. *)
Definition resolve_config (options : value) : option Config :=
  c1 ← member options "colors";
  c2 ← member options "colors";
  i1 ← member options "interaction";
  i2 ← member options "interaction";
  a1 ← member options "animation";
  Some {|
    colors := {|
      start := Js.or (opt_member c1 "start") default_start;
      end_ := Js.or (opt_member c2 "end") default_end
    |};
    interaction := {|
      enabled := strict_ne_bool (opt_member i1 "enabled") false;
      strength := Js.or (opt_member i2 "strength") (VNum 1.5)
    |};
    animation := {|
      speed := Js.or (opt_member a1 "speed") (VNum 1.0)
    |}
  |}.

(** An options object built like the literal [{ group: { name: v } }]. *)
Definition nested (group name : string) (v : value) : value :=
  VObj {[ group := VObj {[ name := v ]} ]}.

(** ** The WebGL context *)

Module Gl.

Inductive shader_type := VERTEX_SHADER | FRAGMENT_SHADER.

Global Instance shader_type_eq_dec : EqDecision shader_type.
Proof. solve_decision. Defined.

(** The commands the class issues, with the arguments it passes.  A shader
    object is named by its type (one of each is created), a uniform location
    by the uniform it stands for; [None] is the [null] shader or location. *)
Inductive command :=
| Viewport (x y width height : float)
| CreateShader (type : shader_type)
| ShaderSource (type : shader_type)
| CompileShader (type : shader_type)
| CreateProgram
| AttachShader (shader : option shader_type)
| LinkProgram
| UseProgram
| CreateBuffer
| BindBuffer
| BufferData (data : list float)
| EnableVertexAttribArray (index : Z)
| VertexAttribPointer (index size : Z)
| Uniform1f (location : option string) (x : value)
| Uniform2f (location : option string) (x y : value)
| Uniform3fv (location : option string) (v : value)
| DrawArrays (first count : Z).

Definition is_draw (c : command) : bool :=
  match c with
  | DrawArrays _ _ => true
  | _ => false
  end.

(** The uniform store of the program: the values last uploaded under each
    name, as they were passed (a uniform never written holds zeros). *)
Abbreviation uniforms := (gmap string (list value)).

Record context := {
  trace : list command;        (* every command issued, oldest first *)
  attached : list shader_type; (* shaders attached to the program *)
  linked : bool;               (* LINK_STATUS of the program *)
  current : bool;              (* the program was installed by useProgram *)
  store : uniforms;
  frames : list uniforms       (* the store at each draw that rendered *)
}.

Definition fresh : context :=
  {| trace := []; attached := []; linked := false; current := false;
     store := ∅; frames := [] |}.

Definition issue (c : command) (g : context) : context :=
  {| trace := trace g ++ [c]; attached := attached g; linked := linked g;
     current := current g; store := store g; frames := frames g |}.

(** [attachShader(program, shader)] with a shader object. *)
Definition attach (s : shader_type) (g : context) : context :=
  let g := issue (AttachShader (Some s)) g in
  {| trace := trace g; attached := attached g ++ [s]; linked := linked g;
     current := current g; store := store g; frames := frames g |}.

(** [linkProgram]: both stages must be attached (only compiled shaders ever
    are) and the driver must accept the pair ([ok]). *)
Definition link (ok : bool) (g : context) : context :=
  let g := issue LinkProgram g in
  {| trace := trace g; attached := attached g;
     linked := bool_decide (VERTEX_SHADER ∈ attached g)
               && bool_decide (FRAGMENT_SHADER ∈ attached g) && ok;
     current := current g; store := store g; frames := frames g |}.

(** [useProgram]: INVALID_OPERATION, and no change, for an unlinked program. *)
Definition use (g : context) : context :=
  let g := issue UseProgram g in
  {| trace := trace g; attached := attached g; linked := linked g;
     current := current g || linked g; store := store g; frames := frames g |}.

(** [getUniformLocation(program, name)]: [null] for an unlinked program. *)
Definition uniform_location (g : context) (name : string) : option string :=
  if linked g then Some name else None.

(** [getAttribLocation(program, name)]: [-1] for an unlinked program. *)
Definition attrib_location (g : context) : Z :=
  if linked g then 0%Z else (-1)%Z.

Definition write (location : option string) (vs : list value) (g : context)
  : context :=
  match location with
  | Some name =>
      {| trace := trace g; attached := attached g; linked := linked g;
         current := current g; store := <[name := vs]> (store g);
         frames := frames g |}
  | None => g
  end.

Definition uniform1f (location : option string) (x : value) (g : context)
  : context :=
  write location [x] (issue (Uniform1f location x) g).

Definition uniform2f (location : option string) (x y : value) (g : context)
  : context :=
  write location [x; y] (issue (Uniform2f location x y) g).

(** [uniform3fv(location, v)] for an array [v] of components [xs]: a vec3
    uniform takes exactly three (INVALID_VALUE and no change otherwise). *)
Definition uniform3fv (location : option string) (xs : list value)
  (g : context) : context :=
  let g := issue (Uniform3fv location (VArr xs)) g in
  if bool_decide (length xs = 3) then write location xs g else g.

(** [drawArrays(TRIANGLES, first, count)]: renders with the store as it is
    when a program is installed (INVALID_OPERATION otherwise). *)
Definition draw (first count : Z) (g : context) : context :=
  let g := issue (DrawArrays first count) g in
  {| trace := trace g; attached := attached g; linked := linked g;
     current := current g; store := store g;
     frames := if current g then frames g ++ [store g] else frames g |}.

Definition draw_calls (g : context) : nat :=
  length (filter (λ c, is_draw c = true) (trace g)).

End Gl.

(** ** The hosting page *)

Module Page.

(** What the host answers when asked; fixed for the life of the page. *)
Record Host := {
  element : string → bool;
    (* document.getElementById(id) finds a canvas element *)
  webgl : bool;
    (* canvas.getContext('webgl') returns a context *)
  compile_status : Gl.shader_type → bool;
    (* COMPILE_STATUS of the fixed source of each stage *)
  shader_info_log : Gl.shader_type → string;
    (* getShaderInfoLog of each stage *)
  link_status : bool;
    (* the driver links the two compiled stages *)
  attach_null_throws : bool
    (* attachShader rejects a null shader with a TypeError (the binding of
       current browsers) instead of recording INVALID_VALUE *)
}.

(** The closure [loop] of [startAnimation]: the seven locations it captured. *)
Record Loop := {
  u_res : option string;
  u_mouse : option string;
  u_time : option string;
  u_colStart : option string;
  u_colEnd : option string;
  u_speed : option string;
  u_strength : option string
}.

(** The fields the constructor assigns after its two guards. *)
Record Instance := {
  config : Config;
  mouseX : float;
  mouseY : float;
  startTime : float
}.

Record World := {
  innerWidth : float;          (* window.innerWidth *)
  innerHeight : float;         (* window.innerHeight *)
  now : float;                 (* Date.now() *)
  console : list string;       (* console.error lines, oldest first *)
  uncaught : list string;      (* exceptions that reached the host *)
  width : float;               (* canvas.width *)
  height : float;              (* canvas.height *)
  gl : Gl.context;
  on_resize : bool;            (* the resize listener is registered *)
  on_mousemove : bool;         (* the mousemove listener is registered *)
  frame_request : option Loop; (* callback pending in requestAnimationFrame *)
  this : option Instance       (* None until the fields are assigned *)
}.

(** A freshly loaded page: a window of the given size, a canvas element of
    the default size, nothing logged, registered or drawn. *)
Definition load (w h t : float) : World :=
  {| innerWidth := w; innerHeight := h; now := t; console := [];
     uncaught := []; width := 300; height := 150; gl := Gl.fresh;
     on_resize := false; on_mousemove := false; frame_request := None;
     this := None |}.

Definition with_window (iw ih : float) (w : World) : World :=
  {| innerWidth := iw; innerHeight := ih; now := now w; console := console w;
     uncaught := uncaught w; width := width w; height := height w;
     gl := gl w; on_resize := on_resize w; on_mousemove := on_mousemove w;
     frame_request := frame_request w; this := this w |}.

Definition with_now (t : float) (w : World) : World :=
  {| innerWidth := innerWidth w; innerHeight := innerHeight w; now := t;
     console := console w; uncaught := uncaught w; width := width w;
     height := height w; gl := gl w; on_resize := on_resize w;
     on_mousemove := on_mousemove w; frame_request := frame_request w;
     this := this w |}.

Definition with_console (c : list string) (w : World) : World :=
  {| innerWidth := innerWidth w; innerHeight := innerHeight w; now := now w;
     console := c; uncaught := uncaught w; width := width w;
     height := height w; gl := gl w; on_resize := on_resize w;
     on_mousemove := on_mousemove w; frame_request := frame_request w;
     this := this w |}.

Definition with_uncaught (u : list string) (w : World) : World :=
  {| innerWidth := innerWidth w; innerHeight := innerHeight w; now := now w;
     console := console w; uncaught := u; width := width w;
     height := height w; gl := gl w; on_resize := on_resize w;
     on_mousemove := on_mousemove w; frame_request := frame_request w;
     this := this w |}.

Definition with_canvas (cw ch : float) (w : World) : World :=
  {| innerWidth := innerWidth w; innerHeight := innerHeight w; now := now w;
     console := console w; uncaught := uncaught w; width := cw; height := ch;
     gl := gl w; on_resize := on_resize w; on_mousemove := on_mousemove w;
     frame_request := frame_request w; this := this w |}.

Definition with_gl (g : Gl.context) (w : World) : World :=
  {| innerWidth := innerWidth w; innerHeight := innerHeight w; now := now w;
     console := console w; uncaught := uncaught w; width := width w;
     height := height w; gl := g; on_resize := on_resize w;
     on_mousemove := on_mousemove w; frame_request := frame_request w;
     this := this w |}.

Definition with_on_resize (b : bool) (w : World) : World :=
  {| innerWidth := innerWidth w; innerHeight := innerHeight w; now := now w;
     console := console w; uncaught := uncaught w; width := width w;
     height := height w; gl := gl w; on_resize := b;
     on_mousemove := on_mousemove w; frame_request := frame_request w;
     this := this w |}.

Definition with_on_mousemove (b : bool) (w : World) : World :=
  {| innerWidth := innerWidth w; innerHeight := innerHeight w; now := now w;
     console := console w; uncaught := uncaught w; width := width w;
     height := height w; gl := gl w; on_resize := on_resize w;
     on_mousemove := b; frame_request := frame_request w; this := this w |}.

Definition with_frame_request (r : option Loop) (w : World) : World :=
  {| innerWidth := innerWidth w; innerHeight := innerHeight w; now := now w;
     console := console w; uncaught := uncaught w; width := width w;
     height := height w; gl := gl w; on_resize := on_resize w;
     on_mousemove := on_mousemove w; frame_request := r; this := this w |}.

Definition with_this (i : option Instance) (w : World) : World :=
  {| innerWidth := innerWidth w; innerHeight := innerHeight w; now := now w;
     console := console w; uncaught := uncaught w; width := width w;
     height := height w; gl := gl w; on_resize := on_resize w;
     on_mousemove := on_mousemove w; frame_request := frame_request w;
     this := i |}.

(** *** Computations on the page: state, and exceptions that unwind *)

Inductive outcome (A : Type) :=
| Returned (a : A)
| Thrown (e : string).
Arguments Returned {A} a.
Arguments Thrown {A} e.

Definition M (A : Type) : Type := World → outcome A * World.

Definition ret {A} (a : A) : M A := λ w, (Returned a, w).

Definition bind {A B} (m : M A) (k : A → M B) : M B :=
  λ w, match m w with
       | (Returned a, w') => k a w'
       | (Thrown e, w') => (Thrown e, w')
       end.

Definition throw {A} (e : string) : M A := λ w, (Thrown e, w).

Definition read {A} (f : World → A) : M A := λ w, (Returned (f w), w).

Definition update (f : World → World) : M unit := λ w, (Returned tt, f w).

(** The world a computation leaves behind. *)
Definition exec {A} (m : M A) (w : World) : World := snd (m w).

(** A script or handler run by the host: an exception that escapes it is
    reported as uncaught, and the page goes on. *)
Definition run_task (m : M unit) (w : World) : World :=
  match m w with
  | (Returned _, w') => w'
  | (Thrown e, w') => with_uncaught (uncaught w' ++ [e]) w'
  end.

End Page.
Import Page.

Declare Scope js_scope.
Delimit Scope js_scope with js.
Notation "x <- m ;; k" := (bind m (λ x, k))
  (at level 100, m at next level, right associativity) : js_scope.
Notation "m ;; k" := (bind m (λ _, k))
  (at level 100, right associativity) : js_scope.

(** ** The class [FractalBackground] *)

Module FractalBackground.
Section Class.

Context (h : Host).

Local Open Scope js_scope.

Definition console_error (line : string) : M unit :=
  update (λ w, with_console (console w ++ [line]) w).

Definition gl_do (f : Gl.context → Gl.context) : M unit :=
  update (λ w, with_gl (f (gl w)) w).

(** Reading a field of [this] before the constructor assigned it would be a
    TypeError ([this.config] is undefined then); no method does. *)
Definition fields : M Instance :=
  i <- read this;;
  match i with
  | Some i => ret i
  | None => throw "TypeError"
  end.

(** The template literal of the first guard: the id between two quotation
    marks (character 34). *)
Definition canvas_not_found (canvasId : string) : string :=
  "Canvas with id " +:+ String "034"%char canvasId
  +:+ String "034"%char " not found.".

Definition webgl_not_supported : string := "WebGL not supported".

(** [resize()] *)
Definition resize : M unit :=
  update (λ w, with_canvas (innerWidth w) (height w) w);;
  update (λ w, with_canvas (width w) (innerHeight w) w);;
  cw <- read width;;
  ch <- read height;;
  gl_do (Gl.issue (Gl.Viewport 0 0 cw ch)).

(** The handler of [mousemove] registered by [init]. *)
Definition on_mouse (clientX clientY : float) : M unit :=
  i <- fields;;
  update (with_this (Some {| config := config i; mouseX := clientX;
                             mouseY := mouseY i;
                             startTime := startTime i |}));;
  i <- fields;;
  ch <- read height;;
  update (with_this (Some {| config := config i; mouseX := mouseX i;
                             mouseY := ch - clientY;
                             startTime := startTime i |})).

(** [compileShader(type, source)]: the shader, or [null] after logging. *)
Definition compileShader (type : Gl.shader_type)
  : M (option Gl.shader_type) :=
  gl_do (Gl.issue (Gl.CreateShader type));;
  gl_do (Gl.issue (Gl.ShaderSource type));;
  gl_do (Gl.issue (Gl.CompileShader type));;
  if negb (compile_status h type) then
    console_error (shader_info_log h type);;
    ret None
  else ret (Some type).

(** [gl.attachShader(this.program, shader)] *)
Definition attachShader (shader : option Gl.shader_type) : M unit :=
  match shader with
  | Some s => gl_do (Gl.attach s)
  | None =>
      if attach_null_throws h then throw "TypeError"
      else gl_do (Gl.issue (Gl.AttachShader None))
  end.

(** [createShaders()] *)
Definition createShaders : M unit :=
  vs <- compileShader Gl.VERTEX_SHADER;;
  fs <- compileShader Gl.FRAGMENT_SHADER;;
  gl_do (Gl.issue Gl.CreateProgram);;
  attachShader vs;;
  attachShader fs;;
  gl_do (Gl.link (link_status h));;
  gl_do Gl.use.

(** The six vertices of the two triangles covering the surface. *)
Definition quad : list float :=
  [-1; -1; 1; -1; -1; 1;
   -1; 1; 1; -1; 1; 1]%float.

(** [createBuffer()] *)
Definition createBuffer : M unit :=
  gl_do (Gl.issue Gl.CreateBuffer);;
  gl_do (Gl.issue Gl.BindBuffer);;
  gl_do (Gl.issue (Gl.BufferData quad));;
  posLoc <- read (λ w, Gl.attrib_location (gl w));;
  gl_do (Gl.issue (Gl.EnableVertexAttribArray posLoc));;
  gl_do (Gl.issue (Gl.VertexAttribPointer posLoc 2)).

(** [gl.uniform3fv(location, v)]: the binding converts [v] to a list of
    floats first, a TypeError unless it is an array. *)
Definition uniform3fv (location : option string) (v : value) : M unit :=
  match v with
  | VArr xs => gl_do (Gl.uniform3fv location xs)
  | _ => throw "TypeError"
  end.

Definition requestAnimationFrame (callback : Loop) : M unit :=
  update (with_frame_request (Some callback)).

(** The body of the arrow function [loop] of [startAnimation]. *)
Definition loop (l : Loop) : M unit :=
  t <- read now;;
  i <- fields;;
  let time := ((t - startTime i) * 0.001)%float in
  cw <- read width;;
  ch <- read height;;
  gl_do (Gl.uniform2f (u_res l) (VNum cw) (VNum ch));;
  i <- fields;;
  gl_do (Gl.uniform2f (u_mouse l) (VNum (mouseX i)) (VNum (mouseY i)));;
  gl_do (Gl.uniform1f (u_time l) (VNum time));;
  i <- fields;;
  uniform3fv (u_colStart l) (start (colors (config i)));;
  i <- fields;;
  uniform3fv (u_colEnd l) (end_ (colors (config i)));;
  i <- fields;;
  gl_do (Gl.uniform1f (u_speed l) (speed (animation (config i))));;
  i <- fields;;
  gl_do (Gl.uniform1f (u_strength l) (strength (interaction (config i))));;
  gl_do (Gl.draw 0 6);;
  requestAnimationFrame l.

(** [startAnimation()] *)
Definition startAnimation : M unit :=
  g <- read gl;;
  let l := {| u_res := Gl.uniform_location g "u_resolution";
              u_mouse := Gl.uniform_location g "u_mouse";
              u_time := Gl.uniform_location g "u_time";
              u_colStart := Gl.uniform_location g "u_colorStart";
              u_colEnd := Gl.uniform_location g "u_colorEnd";
              u_speed := Gl.uniform_location g "u_speed";
              u_strength := Gl.uniform_location g "u_strength" |} in
  loop l.

(** [init()] *)
Definition init : M unit :=
  resize;;
  update (with_on_resize true);;
  i <- fields;;
  (if enabled (interaction (config i))
   then update (with_on_mousemove true)
   else ret tt);;
  createShaders;;
  createBuffer;;
  startAnimation.

(** [constructor(canvasId, options = {})] *)
Definition constructor (canvasId : string) (options : value) : M unit :=
  let options := param_default options (VObj ∅) in
  if negb (element h canvasId) then
    console_error (canvas_not_found canvasId)
  else if negb (webgl h) then
    console_error webgl_not_supported
  else
    match resolve_config options with
    | None => throw "TypeError"
    | Some cfg =>
        t <- read now;;
        update (with_this (Some {| config := cfg; mouseX := 0; mouseY := 0;
                                   startTime := t |}));;
        init
    end.

(** [new FractalBackground(canvasId, options)] as a statement of a script. *)
Definition construct (canvasId : string) (options : value) (w : World)
  : World :=
  run_task (constructor canvasId options) w.

(** *** Notifications from the host *)

Inductive event :=
| Resized (innerWidth innerHeight : float)  (* the window changed size *)
| MouseMoved (clientX clientY : float)      (* the pointer moved *)
| Refresh (now : float).                    (* the display refreshes *)

(** The host delivers a notification to the listeners registered for it. *)
Definition dispatch (e : event) (w : World) : World :=
  match e with
  | Resized iw ih =>
      let w := with_window iw ih w in
      if on_resize w then run_task resize w else w
  | MouseMoved x y =>
      if on_mousemove w then run_task (on_mouse x y) w else w
  | Refresh t =>
      let w := with_now t w in
      match frame_request w with
      | Some l => run_task (loop l) (with_frame_request None w)
      | None => w
      end
  end.

Definition run (es : list event) (w : World) : World :=
  foldl (λ w e, dispatch e w) w es.

End Class.
End FractalBackground.
Import FractalBackground.

(** ** The fragment program [fsSource] *)

Module Shader.

(** The float of the GPU.  Its precision is the GPU's own, so the program is
    written against the operations it uses and nothing is assumed about
    rounding.  [GLArith] has the operators, [sqrt], the comparison and the
    reading of a decimal literal of the program text ([lit]); they are all
    the loop needs. *)
Class GLArith (F : Type) := {
  lit : Q → F;
  add : F → F → F;
  sub : F → F → F;
  mul : F → F → F;
  div : F → F → F;
  sqrt : F → F;
  gt : F → F → bool
}.

(** [GLFloat] adds the other built-ins of the program and the conversion of
    an argument of [uniform1f], [uniform2f] or [uniform3fv] to a float of
    the GPU ([upload]).  The one law is that multiplication commutes, as it
    does in IEEE arithmetic and over the reals. *)
Class GLFloat (F : Type) := {
  arith :: GLArith F;
  sin : F → F;
  cos : F → F;
  log2 : F → F;
  pow : F → F → F;
  upload : value → F;
  mul_comm : ∀ a b : F, mul a b = mul b a
}.

Record vec2 (F : Type) := Vec2 { x : F; y : F }.
Record vec3 (F : Type) := Vec3 { r : F; g : F; b : F }.
Record vec4 (F : Type) := Vec4 { rgb : vec3 F; a : F }.
Arguments Vec2 {F} x y.
Arguments x {F} _.
Arguments y {F} _.
Arguments Vec3 {F} r g b.
Arguments r {F} _.
Arguments g {F} _.
Arguments b {F} _.
Arguments Vec4 {F} rgb a.
Arguments rgb {F} _.
Arguments a {F} _.

(** The seven uniforms declared by the program. *)
Record inputs (F : Type) := {
  u_resolution : vec2 F;
  u_mouse : vec2 F;
  u_time : F;
  u_colorStart : vec3 F;
  u_colorEnd : vec3 F;
  u_speed : F;
  u_strength : F
}.
Arguments u_resolution {F} _.
Arguments u_mouse {F} _.
Arguments u_time {F} _.
Arguments u_colorStart {F} _.
Arguments u_colorEnd {F} _.
Arguments u_speed {F} _.
Arguments u_strength {F} _.

Declare Scope glsl_scope.
Delimit Scope glsl_scope with glsl.
Notation "a + b" := (add a b) : glsl_scope.
Notation "a - b" := (sub a b) : glsl_scope.
Notation "a * b" := (mul a b) : glsl_scope.
Notation "a / b" := (div a b) : glsl_scope.

Section Loop.

Context {F : Type} `{GLArith F}.

Local Open Scope glsl_scope.

(** Built-ins, as the GLSL ES specification defines them. *)
Definition dot (v w : vec2 F) : F := x v * x w + y v * y w.
Definition length (v : vec2 F) : F := sqrt (dot v v).
Definition mix (v w : vec3 F) (t : F) : vec3 F :=
  Vec3 (r v * (lit 1 - t) + r w * t)
       (g v * (lit 1 - t) + g w * t)
       (b v * (lit 1 - t) + b w * t).

(** [const float max_iter = 100.0].  The loop counter [i] and the counter
    [iter] only ever hold the whole numbers 0 to 100, which every float
    holds exactly, so they are kept as naturals; [count] is the float. *)
Definition max_iter : nat := 100.
Definition count (n : nat) : F := lit (inject_Z (Z.of_nat n)).

(** Lines 102-104: one update of [z]. *)
Definition step (c z : vec2 F) : vec2 F :=
  Vec2 ((x z * x z - y z * y z) + x c) ((lit 2 * x z * y z) + y c).

(** Line 105: the test that leaves the loop. *)
Definition escaped (z : vec2 F) : bool := gt (length z) (lit 2).

(** Lines 101-107: the loop with [n] passes left, from [z] and [iter];
    its result is the pair of [z] and [iter] when it is left. *)
Fixpoint iterate (n : nat) (c z : vec2 F) (iter : nat) : vec2 F * nat :=
  match n with
  | O => (z, iter)
  | S n =>
      let z := step c z in
      if escaped z then (z, iter) else iterate n c z (S iter)
  end.

(** The [k]-th iterate of [z ← z² + c] from [z]. *)
Definition orbit (c z : vec2 F) (k : nat) : vec2 F := Nat.iter k (step c) z.

End Loop.

Section Program.

Context {F : Type} `{GLFloat F}.

Local Open Scope glsl_scope.

(** Lines 88-89: the plane coordinate of a fragment. *)
Definition plane (u : inputs F) (fragCoord : vec2 F) : vec2 F :=
  let uv :=
    Vec2 ((x fragCoord - lit 0.5 * x (u_resolution u)) / y (u_resolution u))
         ((y fragCoord - lit 0.5 * y (u_resolution u)) / y (u_resolution u))
  in
  Vec2 (x uv * lit 2.5) (y uv * lit 2.5).

(** Lines 92-95: the parameter [c]. *)
Definition parameter (u : inputs F) : vec2 F :=
  let time := u_time u * u_speed u in
  let auto_anim :=
    Vec2 (sin (time * lit 0.3) * lit 0.1) (cos (time * lit 0.2) * lit 0.1) in
  let mouse_offset :=
    Vec2 ((x (u_mouse u) / x (u_resolution u) - lit 0.5) * u_strength u)
         ((y (u_mouse u) / y (u_resolution u) - lit 0.5) * u_strength u) in
  Vec2 (lit (-0.8) + x auto_anim + x mouse_offset)
       (lit 0.156 + y auto_anim + y mouse_offset).

(** Lines 109-121: the colour, from [z] and [iter] after the loop.  (The
    first values of [t] and [color] are overwritten before any use.) *)
Definition shade (u : inputs F) (z : vec2 F) (iter : nat) : vec3 F :=
  if (iter <? max_iter)%nat then
    let smooth_val := count iter - log2 (log2 (dot z z)) + lit 4 in
    let t := smooth_val / count max_iter in
    let glow :=
      pow t (lit 0.5) * (lit 0.8 + sin (u_time u * lit 0.5) * lit 0.2) in
    mix (u_colorStart u) (u_colorEnd u) glow
  else Vec3 (lit 0.01) (lit 0.01) (lit 0.02).

(** The loop as [main] runs it for a fragment. *)
Definition fractal (u : inputs F) (fragCoord : vec2 F) : vec2 F * nat :=
  iterate max_iter (parameter u) (plane u fragCoord) 0.

(** [main]: the value written to [gl_FragColor]. *)
Definition main (u : inputs F) (fragCoord : vec2 F) : vec4 F :=
  let '(z, iter) := fractal u fragCoord in
  Vec4 (shade u z iter) (lit 1).

(** *** What a draw reads from the uniform store *)

Definition component (vs : list value) (i : nat) : F :=
  match vs !! i with
  | Some v => upload v
  | None => lit 0
  end.

Definition read2 (s : Gl.uniforms) (name : string) : vec2 F :=
  let vs := default [] (s !! name) in
  Vec2 (component vs 0) (component vs 1).

Definition read3 (s : Gl.uniforms) (name : string) : vec3 F :=
  let vs := default [] (s !! name) in
  Vec3 (component vs 0) (component vs 1) (component vs 2).

Definition read1 (s : Gl.uniforms) (name : string) : F :=
  component (default [] (s !! name)) 0.

Definition inputs_of (s : Gl.uniforms) : inputs F :=
  {| u_resolution := read2 s "u_resolution";
     u_mouse := read2 s "u_mouse";
     u_time := read1 s "u_time";
     u_colorStart := read3 s "u_colorStart";
     u_colorEnd := read3 s "u_colorEnd";
     u_speed := read1 s "u_speed";
     u_strength := read1 s "u_strength" |}.

(** The centre of the pixel in column [i] and row [j], counted from the
    bottom-left corner: the value of [gl_FragCoord.xy] there. *)
Definition pixel (i j : nat) : vec2 F :=
  Vec2 (count i + lit 0.5) (count j + lit 0.5).

End Program.
End Shader.

(** ** The fragment program of the stand-alone script

    The repository also holds a script that draws the same fractal without
    the class.  Its fragment program has three uniforms, a hard-coded
    strength and palette, and the same loop; only the program is embedded
    here, for the statements about the loop. *)

Module Standalone.
Import Shader.
Section Program.

Context {F : Type} `{GLFloat F}.

Local Open Scope glsl_scope.

(** Lines 40-43 of the script. *)
Definition plane (u_resolution fragCoord : vec2 F) : vec2 F :=
  let uv :=
    Vec2 ((x fragCoord - lit 0.5 * x u_resolution) / y u_resolution)
         ((y fragCoord - lit 0.5 * y u_resolution) / y u_resolution)
  in
  Vec2 (x uv * lit 2.5) (y uv * lit 2.5).

(** Lines 51-58. *)
Definition parameter (u_resolution u_mouse : vec2 F) (u_time : F) : vec2 F :=
  let auto_anim :=
    Vec2 (sin (u_time * lit 0.3) * lit 0.1)
         (cos (u_time * lit 0.2) * lit 0.1) in
  let mouse_offset :=
    Vec2 ((x u_mouse / x u_resolution - lit 0.5) * lit 1.5)
         ((y u_mouse / y u_resolution - lit 0.5) * lit 1.5) in
  Vec2 (lit (-0.8) + x auto_anim + x mouse_offset)
       (lit 0.156 + y auto_anim + y mouse_offset).

(** Lines 60-76: the loop of the class, on this plane point and parameter. *)
Definition fractal (u_resolution u_mouse : vec2 F) (u_time : F)
  (fragCoord : vec2 F) : vec2 F * nat :=
  iterate max_iter (parameter u_resolution u_mouse u_time)
    (plane u_resolution fragCoord) 0.

(** Lines 79-107. *)
Definition shade (u_time : F) (z : vec2 F) (iter : nat) : vec3 F :=
  if (iter <? max_iter)%nat then
    let smooth_val := count iter - log2 (log2 (dot z z)) + lit 4 in
    let t := smooth_val / count max_iter in
    let colorStart := Vec3 (lit 0.05) (lit 0.08) (lit 0.12) in
    let colorEnd := Vec3 (lit 0.2) (lit 0.5) (lit 0.55) in
    let glow :=
      pow t (lit 0.5) * (lit 0.8 + sin (u_time * lit 0.5) * lit 0.2) in
    mix colorStart colorEnd glow
  else Vec3 (lit 0.01) (lit 0.01) (lit 0.02).

Definition main (u_resolution u_mouse : vec2 F) (u_time : F)
  (fragCoord : vec2 F) : vec4 F :=
  let '(z, iter) := fractal u_resolution u_mouse u_time fragCoord in
  Vec4 (shade u_time z iter) (lit 1).

End Program.
End Standalone.

(** ** A model of the interface: exact arithmetic over the reals *)

Module Ideal.

(** The real number a finite binary64 value denotes (0 for the others). *)
Definition of_double (d : float) : R :=
  match Prim2SF d with
  | S754_finite s m e =>
      ((if s then (-1) else 1) * IZR (Zpos m) * powerRZ 2 e)%R
  | _ => 0%R
  end.

(** The upload of a number; the conversion of other JavaScript values to a
    number is not part of this model and they are read as 0. *)
Definition of_value (v : value) : R :=
  match v with
  | VNum d => of_double d
  | _ => 0%R
  end.

#[export] Instance real_arith : Shader.GLArith R := {|
  Shader.lit := Q2R;
  Shader.add := Rplus;
  Shader.sub := Rminus;
  Shader.mul := Rmult;
  Shader.div := Rdiv;
  Shader.sqrt := R_sqrt.sqrt;
  Shader.gt := λ a b, if Rgt_dec a b then true else false
|}.

#[export] Instance real : Shader.GLFloat R := {|
  Shader.arith := real_arith;
  Shader.sin := Rtrigo_def.sin;
  Shader.cos := Rtrigo_def.cos;
  Shader.log2 := λ a, (ln a / ln 2)%R;
  Shader.pow := Rpower;
  Shader.upload := of_value;
  Shader.mul_comm := Rmult_comm
|}.

End Ideal.

(** ** A model of the arithmetic: binary64, to run the loop *)

Module Binary64.

Definition of_Z (n : Z) : float :=
  match n with
  | Z0 => 0
  | Zpos p => of_uint63 (Uint63.of_Z (Zpos p))
  | Zneg p => - of_uint63 (Uint63.of_Z (Zpos p))
  end.

(** A decimal literal: the quotient of two integers that binary64 holds
    exactly, rounded once. *)
Definition of_Q (q : Q) : float := of_Z (Qnum q) / of_Z (Zpos (Qden q)).

#[export] Instance arith : Shader.GLArith float := {|
  Shader.lit := of_Q;
  Shader.add := PrimFloat.add;
  Shader.sub := PrimFloat.sub;
  Shader.mul := PrimFloat.mul;
  Shader.div := PrimFloat.div;
  Shader.sqrt := PrimFloat.sqrt;
  Shader.gt := λ a b, PrimFloat.ltb b a
|}.

End Binary64.


(** ** The stand-alone script

    [src/unnamed/part_000] draws the fractal without the class: top-level
    statements, the functions [resizeCanvas], [createShader] and [render],
    and a [mousemove] listener, on the canvas [fractal-canvas]. *)

Module Script.

(** The three locations the script looks up (lines 158-160). *)
Record Locations := {
  resolutionUniformLocation : option string;
  mouseUniformLocation : option string;
  timeUniformLocation : option string
}.

(** The page and what the script adds to it.  The bindings declared late in
    the script ([locations], [pointer]) are [None] until their declaration
    is evaluated. *)
Record State := {
  page : World;
  alerts : list string;             (* messages shown by alert() *)
  deleted : list Gl.shader_type;    (* shaders passed to deleteShader *)
  locations : option Locations;
  pointer : option (float * float); (* mouseX and mouseY *)
  render_request : bool  (* render is pending in requestAnimationFrame *)
}.

(** The script starts on a freshly loaded page. *)
Definition load (w h : float) : State :=
  {| page := Page.load w h 0; alerts := []; deleted := []; locations := None;
     pointer := None; render_request := false |}.

Definition with_page (w : World) (s : State) : State :=
  {| page := w; alerts := alerts s; deleted := deleted s;
     locations := locations s; pointer := pointer s;
     render_request := render_request s |}.

Definition with_alerts (a : list string) (s : State) : State :=
  {| page := page s; alerts := a; deleted := deleted s;
     locations := locations s; pointer := pointer s;
     render_request := render_request s |}.

Definition with_deleted (d : list Gl.shader_type) (s : State) : State :=
  {| page := page s; alerts := alerts s; deleted := d;
     locations := locations s; pointer := pointer s;
     render_request := render_request s |}.

Definition with_locations (l : option Locations) (s : State) : State :=
  {| page := page s; alerts := alerts s; deleted := deleted s;
     locations := l; pointer := pointer s;
     render_request := render_request s |}.

Definition with_pointer (p : option (float * float)) (s : State) : State :=
  {| page := page s; alerts := alerts s; deleted := deleted s;
     locations := locations s; pointer := p;
     render_request := render_request s |}.

Definition with_render_request (b : bool) (s : State) : State :=
  {| page := page s; alerts := alerts s; deleted := deleted s;
     locations := locations s; pointer := pointer s; render_request := b |}.

(** *** Computations of the script *)

Definition S (A : Type) : Type := State → outcome A * State.

Definition ret {A} (a : A) : S A := λ s, (Returned a, s).

Definition bind {A B} (m : S A) (k : A → S B) : S B :=
  λ s, match m s with
       | (Returned a, s') => k a s'
       | (Thrown e, s') => (Thrown e, s')
       end.

Definition throw {A} (e : string) : S A := λ s, (Thrown e, s).

Definition read {A} (f : State → A) : S A := λ s, (Returned (f s), s).

Definition update (f : State → State) : S unit := λ s, (Returned tt, f s).

(** A computation on the page alone. *)
Definition lift {A} (m : M A) : S A :=
  λ s, let '(o, w) := m (page s) in (o, with_page w s).

(** A binding declared with [let] or [const]: a ReferenceError before its
    declaration is evaluated. *)
Definition declared {A} (f : State → option A) : S A :=
  λ s, match f s with
       | Some a => (Returned a, s)
       | None => (Thrown "ReferenceError", s)
       end.

Definition run_task (m : S unit) (s : State) : State :=
  match m s with
  | (Returned _, s') => s'
  | (Thrown e, s') =>
      with_page (with_uncaught (uncaught (page s') ++ [e]) (page s')) s'
  end.

Declare Scope script_scope.
Delimit Scope script_scope with script.
Notation "x <- m ;; k" := (bind m (λ x, k))
  (at level 100, m at next level, right associativity) : script_scope.
Notation "m ;; k" := (bind m (λ _, k))
  (at level 100, right associativity) : script_scope.

Section Script.

(** The host, and what it answers to [getProgramInfoLog]. *)
Context (h : Host) (program_info_log : string).

Local Open Scope script_scope.

Definition alert (message : string) : S unit :=
  update (λ s, with_alerts (alerts s ++ [message]) s).

(** A method of [gl]: [gl] is [null] without WebGL (line 2), and a call on
    it a TypeError. *)
Definition gl_method {A} (m : S A) : S A :=
  if webgl h then m else throw "TypeError".

Definition gl_call (f : Gl.context → Gl.context) : S unit :=
  gl_method (lift (gl_do f)).

(** [resizeCanvas()], lines 9-13. *)
Definition resizeCanvas : S unit :=
  lift (Page.update (λ w, with_canvas (innerWidth w) (height w) w));;
  lift (Page.update (λ w, with_canvas (width w) (innerHeight w) w));;
  cw <- lift (Page.read width);;
  ch <- lift (Page.read height);;
  gl_call (Gl.issue (Gl.Viewport 0 0 cw ch)).

(** [createShader(gl, type, source)], lines 114-124. *)
Definition createShader (type : Gl.shader_type)
  : S (option Gl.shader_type) :=
  gl_call (Gl.issue (Gl.CreateShader type));;
  gl_call (Gl.issue (Gl.ShaderSource type));;
  gl_call (Gl.issue (Gl.CompileShader type));;
  if negb (compile_status h type) then
    lift (console_error (shader_info_log h type));;
    gl_method (update (λ s, with_deleted (deleted s ++ [type]) s));;
    ret None
  else ret (Some type).

(** Lines 141-148. *)
Definition positions : list float :=
  [-1; -1;
   1; -1;
   -1; 1;
   -1; 1;
   1; -1;
   1; 1]%float.

Definition requestAnimationFrame : S unit :=
  update (with_render_request true).

(** The [mousemove] listener, lines 165-168. *)
Definition on_mouse (clientX clientY : float) : S unit :=
  p <- declared pointer;;
  update (with_pointer (Some (clientX, p.2)));;
  ch <- lift (Page.read height);;
  p <- declared pointer;;
  update (with_pointer (Some (p.1, (ch - clientY)%float))).

(** [render(time)], lines 171-181. *)
Definition render (time : float) : S unit :=
  let time := (time * 0.001)%float in
  l <- declared locations;;
  cw <- lift (Page.read width);;
  ch <- lift (Page.read height);;
  gl_call (Gl.uniform2f (resolutionUniformLocation l) (VNum cw) (VNum ch));;
  l <- declared locations;;
  p <- declared pointer;;
  gl_call (Gl.uniform2f (mouseUniformLocation l) (VNum p.1) (VNum p.2));;
  l <- declared locations;;
  gl_call (Gl.uniform1f (timeUniformLocation l) (VNum time));;
  gl_call (Gl.draw 0 6);;
  requestAnimationFrame.

(** The statements of the script, top to bottom. *)
Definition script : S unit :=
  (* 1-2: [canvas.getContext] on [null] when the element is missing *)
  (if element h "fractal-canvas" then ret tt else throw "TypeError");;
  (* 4-6 *)
  (if negb (webgl h) then alert "WebGL not supported" else ret tt);;
  (* 14-15 *)
  lift (Page.update (with_on_resize true));;
  resizeCanvas;;
  (* 126-127 *)
  vertexShader <- createShader Gl.VERTEX_SHADER;;
  fragmentShader <- createShader Gl.FRAGMENT_SHADER;;
  (* 129-132 *)
  gl_call (Gl.issue Gl.CreateProgram);;
  gl_method (lift (attachShader h vertexShader));;
  gl_method (lift (attachShader h fragmentShader));;
  gl_call (Gl.link (link_status h));;
  (* 134-136 *)
  linked <- gl_method (lift (Page.read (λ w, Gl.linked (gl w))));;
  (if negb linked then lift (console_error program_info_log) else ret tt);;
  (* 139-153 *)
  gl_call (Gl.issue Gl.CreateBuffer);;
  gl_call (Gl.issue Gl.BindBuffer);;
  gl_call (Gl.issue (Gl.BufferData positions));;
  positionAttributeLocation <-
    gl_method (lift (Page.read (λ w, Gl.attrib_location (gl w))));;
  gl_call (Gl.issue (Gl.EnableVertexAttribArray positionAttributeLocation));;
  gl_call (Gl.issue (Gl.VertexAttribPointer positionAttributeLocation 2));;
  (* 155 *)
  gl_call Gl.use;;
  (* 158-160 *)
  g <- gl_method (lift (Page.read gl));;
  update (with_locations
            (Some {| resolutionUniformLocation :=
                       Gl.uniform_location g "u_resolution";
                     mouseUniformLocation := Gl.uniform_location g "u_mouse";
                     timeUniformLocation :=
                       Gl.uniform_location g "u_time" |}));;
  (* 162-163 *)
  iw <- lift (Page.read innerWidth);;
  ih <- lift (Page.read innerHeight);;
  update (with_pointer (Some (iw / 2, ih / 2)%float));;
  (* 165-168 *)
  lift (Page.update (with_on_mousemove true));;
  (* 183 *)
  requestAnimationFrame.

(** The page once the script has run. *)
Definition start (iw ih : float) : State := run_task script (load iw ih).

(** *** Notifications from the host *)

Inductive event :=
| Resized (innerWidth innerHeight : float)  (* the window changed size *)
| MouseMoved (clientX clientY : float)      (* the pointer moved *)
| Frame (time : float).  (* the display refreshes, at this timestamp *)

Definition dispatch (e : event) (s : State) : State :=
  match e with
  | Resized iw ih =>
      let s := with_page (with_window iw ih (page s)) s in
      if on_resize (page s) then run_task resizeCanvas s else s
  | MouseMoved x y =>
      if on_mousemove (page s) then run_task (on_mouse x y) s else s
  | Frame t =>
      if render_request s
      then run_task (render t) (with_render_request false s)
      else s
  end.

Definition run (es : list event) (s : State) : State :=
  foldl (λ s e, dispatch e s) s es.

End Script.
End Script.

(** ** The vertex program [vsSource] and the geometry it is fed *)

Module Vertex.
Import Shader Ideal.

Section Program.

Context {F : Type} `{GLArith F}.

(** [gl_Position = vec4(position, 0.0, 1.0)], as (x, y, z, w). *)
Definition main (position : vec2 F) : F * F * F * F :=
  (x position, y position, lit 0, lit 1).

End Program.

(** [vertexAttribPointer(posLoc, 2, FLOAT, false, 0, 0)]: the buffer is read
    as consecutive pairs of floats, one pair per vertex.  The numbers of the
    array are stored as 32-bit floats; the real number each one denotes is
    taken here, which that conversion keeps for the whole numbers the class
    and the script store. *)
Fixpoint attributes (data : list float) : list (vec2 R) :=
  match data with
  | a :: b :: data => Vec2 (Ideal.of_double a) (Ideal.of_double b)
                      :: attributes data
  | _ => []
  end.

(** A triangle, by its three corners on the surface. *)
Definition triangle : Type := (R * R) * (R * R) * (R * R).

(** The position on the surface (normalised device coordinates) of a vertex
    the program put at (x, y, z, w). *)
Definition device (p : R * R * R * R) : R * R :=
  let '(px, py, _, pw) := p in ((px / pw)%R, (py / pw)%R).

(** [TRIANGLES]: consecutive triples of vertices, each a triangle. *)
Fixpoint assemble (vs : list (R * R)) : list triangle :=
  match vs with
  | a :: b :: c :: vs => (a, b, c) :: assemble vs
  | _ => []
  end.

(** [drawArrays(TRIANGLES, first, count)] on a buffer: the triangles that
    are rasterised. *)
Definition drawArrays (data : list float) (first count : nat)
  : list triangle :=
  assemble (device ∘ main <$> take count (drop first (attributes data))).

(** The edge function of the rasteriser: which side of the line from [a] to
    [b] the point [p] is on. *)
Definition edge (a b p : R * R) : R :=
  ((b.1 - a.1) * (p.2 - a.2) - (b.2 - a.2) * (p.1 - a.1))%R.

(** [p] is in the triangle or on its border, whichever way it winds. *)
Definition inside (p : R * R) (t : triangle) : Prop :=
  let '(a, b, c) := t in
  (0 <= edge a b p ∧ 0 <= edge b c p ∧ 0 <= edge c a p)%R ∨
  (edge a b p <= 0 ∧ edge b c p <= 0 ∧ edge c a p <= 0)%R.

End Vertex.

(** * Notions used in the statements *)

(** What the caller supplied for [options.<group>.<name>], read the way
    the constructor reads it. *)
Definition supplied (options : value) (group name : string) : value :=
  opt_member (prop (param_default options (VObj ∅)) group) name.

(** The configuration the constructor resolves from its argument. *)
Definition configured (options : value) : option Config :=
  resolve_config (param_default options (VObj ∅)).

(** [m] leaves the observation [f] of the world as it found it, whether it
    returns or throws. *)
Definition preserves {A T} (f : World → T) (m : M A) : Prop :=
  ∀ w, f (snd (m w)) = f w.

(** The start-up failure the specification calls SurfaceUnavailable, by the
    line each of the two guards of the constructor logs. *)
Inductive SurfaceUnavailable (canvasId : string) : string → Prop :=
| drawable_not_found :
    SurfaceUnavailable canvasId (canvas_not_found canvasId)
| context_not_obtainable :
    SurfaceUnavailable canvasId webgl_not_supported.

(** A page on which no instance listens or waits for a refresh. *)
Definition idle (w : World) : Prop :=
  on_resize w = false ∧ on_mousemove w = false ∧ frame_request w = None.

(** What stays as it is while the page is idle. *)
Definition quiet (w : World) : list string * list string * Gl.context :=
  (console w, uncaught w, gl w).

(** *** The stages of a construction that passes the two guards *)

(** The fields as the constructor assigns them. *)
Definition initial (cfg : Config) (t : float) : Instance :=
  {| config := cfg; mouseX := 0; mouseY := 0; startTime := t |}.

(** The page when [init] reaches [createShaders]: the canvas fills the
    window, the viewport is set, the listeners are registered. *)
Definition ready (cfg : Config) (iw ih t : float) : World :=
  {| innerWidth := iw; innerHeight := ih; now := t; console := [];
     uncaught := []; width := iw; height := ih;
     gl := Gl.issue (Gl.Viewport 0 0 iw ih) Gl.fresh;
     on_resize := true; on_mousemove := enabled (interaction cfg);
     frame_request := None;
     this := Some (initial cfg t) |}.

(** What [compileShader] returns and logs for a stage, and the commands it
    issues. *)
Definition compilation (h : Host) (type : Gl.shader_type)
  : option Gl.shader_type :=
  if compile_status h type then Some type else None.

Definition logged (h : Host) (type : Gl.shader_type) : list string :=
  if compile_status h type then [] else [shader_info_log h type].

Definition compiled (type : Gl.shader_type) (g : Gl.context) : Gl.context :=
  Gl.issue (Gl.CompileShader type)
    (Gl.issue (Gl.ShaderSource type) (Gl.issue (Gl.CreateShader type) g)).

(** The context after an [attachShader] that does not throw. *)
Definition attachment (s : option Gl.shader_type) (g : Gl.context)
  : Gl.context :=
  match s with
  | Some s => Gl.attach s g
  | None => Gl.issue (Gl.AttachShader None) g
  end.

(** The context after a [createShaders] that runs to its end. *)
Definition programmed (h : Host) (g : Gl.context) : Gl.context :=
  let g := compiled Gl.FRAGMENT_SHADER (compiled Gl.VERTEX_SHADER g) in
  let g := Gl.issue Gl.CreateProgram g in
  let g := attachment (compilation h Gl.VERTEX_SHADER) g in
  let g := attachment (compilation h Gl.FRAGMENT_SHADER) g in
  Gl.use (Gl.link (link_status h) g).

(** The context after [createBuffer]. *)
Definition buffered (g : Gl.context) : Gl.context :=
  let g := Gl.issue Gl.CreateBuffer g in
  let g := Gl.issue Gl.BindBuffer g in
  let g := Gl.issue (Gl.BufferData quad) g in
  let posLoc := Gl.attrib_location g in
  let g := Gl.issue (Gl.EnableVertexAttribArray posLoc) g in
  Gl.issue (Gl.VertexAttribPointer posLoc 2) g.

(** The page when [init] reaches [startAnimation]. *)
Definition prepared (h : Host) (cfg : Config) (iw ih t : float) : World :=
  with_console (logged h Gl.VERTEX_SHADER ++ logged h Gl.FRAGMENT_SHADER)
    (with_gl (buffered (programmed h (gl (ready cfg iw ih t))))
       (ready cfg iw ih t)).

(** The closure [startAnimation] builds on a context. *)
Definition located (g : Gl.context) : Loop :=
  {| u_res := Gl.uniform_location g "u_resolution";
     u_mouse := Gl.uniform_location g "u_mouse";
     u_time := Gl.uniform_location g "u_time";
     u_colStart := Gl.uniform_location g "u_colorStart";
     u_colEnd := Gl.uniform_location g "u_colorEnd";
     u_speed := Gl.uniform_location g "u_speed";
     u_strength := Gl.uniform_location g "u_strength" |}.

(** The closure when the program linked: every location stands for its
    uniform. *)
Definition valid : Loop :=
  {| u_res := Some "u_resolution";
     u_mouse := Some "u_mouse";
     u_time := Some "u_time";
     u_colStart := Some "u_colorStart";
     u_colEnd := Some "u_colorEnd";
     u_speed := Some "u_speed";
     u_strength := Some "u_strength" |}.

(** The context after the seven uploads of one pass of [loop]. *)
Definition uploaded (l : Loop) (w : World) (i : Instance)
  (cs ce : list value) : Gl.context :=
  let g := gl w in
  let g := Gl.uniform2f (u_res l) (VNum (width w)) (VNum (height w)) g in
  let g := Gl.uniform2f (u_mouse l) (VNum (mouseX i)) (VNum (mouseY i)) g in
  let g := Gl.uniform1f (u_time l) (VNum ((now w - startTime i) * 0.001)) g in
  let g := Gl.uniform3fv (u_colStart l) cs g in
  let g := Gl.uniform3fv (u_colEnd l) ce g in
  let g := Gl.uniform1f (u_speed l) (speed (animation (config i))) g in
  Gl.uniform1f (u_strength l) (strength (interaction (config i))) g.

(** The context after one pass of [loop] that reaches its draw call. *)
Definition rendered (l : Loop) (w : World) (i : Instance)
  (cs ce : list value) : Gl.context :=
  Gl.draw 0 6 (uploaded l w i cs ce).

(** *** Invariants of a constructed instance *)

(** A rendered frame read the colours [cs] and [ce]. *)
Definition coloured (cs ce : list value) (f : Gl.uniforms) : Prop :=
  f !! "u_colorStart" = Some cs ∧ f !! "u_colorEnd" = Some ce.

(** The fields are assigned, with the configuration [cfg] and the start
    time [t]; every frame rendered so far read the colours [cs] and [ce],
    when these have the three components of a vec3; and a pending pass that
    can render holds the valid locations. *)
Definition animated (cfg : Config) (t : float) (cs ce : list value)
  (w : World) : Prop :=
  (∃ i, this w = Some i ∧ config i = cfg ∧ startTime i = t) ∧
  (length cs = 3 → length ce = 3 →
   Forall (coloured cs ce) (Gl.frames (gl w))) ∧
  (∀ l, frame_request w = Some l → Gl.current (gl w) = true → l = valid).

(** The loop is running on a linked program. *)
Definition running (w : World) : Prop :=
  frame_request w = Some valid ∧ Gl.current (gl w) = true.

(** *** The parameter as the specification writes it *)

Section Formula.

Import Shader.
Context {F : Type} `{GLFloat F}.

Local Open Scope glsl_scope.

(** The formula of the specification for [c], written after its words:
    from the elapsed seconds, the speed, the strength, the pointer and the
    resolution.  It is compared below with [Shader.parameter], the
    translation of the program text. *)
Definition c_of (elapsedSeconds speed strength : F)
  (pointer resolution : vec2 F) : vec2 F :=
  let t := elapsedSeconds * speed in
  let autoAnim :=
    Vec2 (sin (lit 0.3 * t) * lit 0.1) (cos (lit 0.2 * t) * lit 0.1) in
  let mouseOffset :=
    Vec2 ((x pointer / x resolution - lit 0.5) * strength)
         ((y pointer / y resolution - lit 0.5) * strength) in
  Vec2 (lit (-0.8) + x autoAnim + x mouseOffset)
       (lit 0.156 + y autoAnim + y mouseOffset).

End Formula.

(** *** Example hosts and options *)

Definition zero_options : value :=
  VObj {[ "animation" := VObj {[ "speed" := VNum 0 ]};
          "interaction" := VObj {[ "strength" := VNum 0 ]} ]}.

(** The configuration resolved when no option is given. *)
Definition default_config : Config :=
  {| colors := {| start := default_start; end_ := default_end |};
     interaction := {| enabled := true; strength := VNum 1.5 |};
     animation := {| speed := VNum 1.0 |} |}.

Definition palette : value :=
  VObj {[ "colors" :=
            VObj {[ "start" := VArr [VNum 0.1; VNum 0.2; VNum 0.3];
                    "end" := VArr [VNum 0.4; VNum 0.5; VNum 0.6] ]} ]}.

(** A browser in which everything works. *)
Definition browser : Host :=
  {| element := λ id, String.eqb id "fractal-canvas";
     webgl := true;
     compile_status := λ _, true;
     shader_info_log := λ _, EmptyString;
     link_status := true;
     attach_null_throws := true |}.

(** A driver that compiles both stages and fails to link them. *)
Definition link_fails : Host :=
  {| element := element browser; webgl := true;
     compile_status := λ _, true;
     shader_info_log := λ _, EmptyString;
     link_status := false;
     attach_null_throws := true |}.

(** A driver that rejects the fragment stage, under a binding that throws
    on a null shader and under one that records INVALID_VALUE. *)
Definition compile_fails (throws : bool) : Host :=
  {| element := element browser; webgl := true;
     compile_status := λ type, bool_decide (type = Gl.VERTEX_SHADER);
     shader_info_log := λ _, "ERROR: 0:1: syntax error";
     link_status := true;
     attach_null_throws := throws |}.

(** *** Notions for the life of a constructed instance *)

Definition is_refresh (e : event) : bool :=
  match e with
  | Refresh _ => true
  | _ => false
  end.

(** The display refreshes among the notifications [es]. *)
Definition refreshes (es : list event) : nat :=
  length (filter (λ e, is_refresh e = true) es).

(** The commands of the frame step and of [resize]: the only ones issued
    after the constructor. *)
Definition per_frame (c : Gl.command) : bool :=
  match c with
  | Gl.Viewport _ _ _ _ | Gl.Uniform1f _ _ | Gl.Uniform2f _ _ _
  | Gl.Uniform3fv _ _ | Gl.DrawArrays _ _ => true
  | _ => false
  end.

(** [g'] is [g] after some commands of the frame step or of [resize]: the
    program object is as it was. *)
Definition later (g g' : Gl.context) : Prop :=
  Gl.attached g' = Gl.attached g ∧ Gl.linked g' = Gl.linked g ∧
  Gl.current g' = Gl.current g ∧
  ∃ cs, Gl.trace g' = Gl.trace g ++ cs ∧
        Forall (λ c, per_frame c = true) cs.

(** [m] only ever moves the context to a later one. *)
Definition advances {A} (m : M A) : Prop :=
  ∀ w, later (gl w) (gl (snd (m w))).



(** A frame in which each of the seven uniforms was written, with the
    number of components of its type. *)
Definition complete (f : Gl.uniforms) : Prop :=
  length <$> f !! "u_resolution" = Some 2 ∧
  length <$> f !! "u_mouse" = Some 2 ∧
  length <$> f !! "u_time" = Some 1 ∧
  length <$> f !! "u_colorStart" = Some 3 ∧
  length <$> f !! "u_colorEnd" = Some 3 ∧
  length <$> f !! "u_speed" = Some 1 ∧
  length <$> f !! "u_strength" = Some 1.

(** The instance is constructed with the configuration [cfg], the pass [l]
    is pending, and no exception has reached the host. *)
Definition cruising (cfg : Config) (l : Loop) (w : World) : Prop :=
  (∃ i, this w = Some i ∧ config i = cfg) ∧
  frame_request w = Some l ∧ uncaught w = [].

(** The eight commands of one pass of [loop], in the order it issues them. *)
Definition pass (l : Loop) (w : World) (i : Instance) : list Gl.command :=
  [ Gl.Uniform2f (u_res l) (VNum (width w)) (VNum (height w));
    Gl.Uniform2f (u_mouse l) (VNum (mouseX i)) (VNum (mouseY i));
    Gl.Uniform1f (u_time l) (VNum ((now w - startTime i) * 0.001));
    Gl.Uniform3fv (u_colStart l) (start (colors (config i)));
    Gl.Uniform3fv (u_colEnd l) (end_ (colors (config i)));
    Gl.Uniform1f (u_speed l) (speed (animation (config i)));
    Gl.Uniform1f (u_strength l) (strength (interaction (config i)));
    Gl.DrawArrays 0 6 ].

(** Like [animated], for any property [P] of the rendered frames. *)
Definition framed (P : Gl.uniforms → Prop) (cfg : Config) (w : World)
  : Prop :=
  (∃ i, this w = Some i ∧ config i = cfg) ∧
  Forall P (Gl.frames (gl w)) ∧
  (∀ l, frame_request w = Some l → Gl.current (gl w) = true → l = valid).

(** *** Notions for the stand-alone script *)

Definition is_frame (e : Script.event) : bool :=
  match e with
  | Script.Frame _ => true
  | _ => false
  end.

Definition is_resize (e : Script.event) : bool :=
  match e with
  | Script.Resized _ _ => true
  | _ => false
  end.

(** The refreshes and the changes of size among the notifications [es]. *)
Definition frames_in (es : list Script.event) : nat :=
  length (filter (λ e, is_frame e = true) es).

Definition resizes_in (es : list Script.event) : nat :=
  length (filter (λ e, is_resize e = true) es).

(** The stages the driver rejects, in the order the script compiles them. *)
Definition failed (h : Host) : list Gl.shader_type :=
  filter (λ type, compile_status h type = false)
    [Gl.VERTEX_SHADER; Gl.FRAGMENT_SHADER].

(** The context when the script has run to its end on a window of the
    given size: the program of [createShaders], installed after the buffer
    is set up. *)
Definition script_context (h : Host) (iw ih : float) : Gl.context :=
  let g := Gl.issue (Gl.Viewport 0 0 iw ih) Gl.fresh in
  let g := compiled Gl.FRAGMENT_SHADER (compiled Gl.VERTEX_SHADER g) in
  let g := Gl.issue Gl.CreateProgram g in
  let g := attachment (compilation h Gl.VERTEX_SHADER) g in
  let g := attachment (compilation h Gl.FRAGMENT_SHADER) g in
  let g := Gl.link (link_status h) g in
  Gl.use (buffered g).

(** The locations the script finds on a context. *)
Definition script_locations (g : Gl.context) : Script.Locations :=
  {| Script.resolutionUniformLocation := Gl.uniform_location g "u_resolution";
     Script.mouseUniformLocation := Gl.uniform_location g "u_mouse";
     Script.timeUniformLocation := Gl.uniform_location g "u_time" |}.

(** What the script has logged at its end. *)
Definition script_log (h : Host) (program_info_log : string) : list string :=
  logged h Gl.VERTEX_SHADER ++ logged h Gl.FRAGMENT_SHADER ++
  (if compile_status h Gl.VERTEX_SHADER && compile_status h Gl.FRAGMENT_SHADER
      && link_status h
   then [] else [program_info_log]).

(** The state when the script has run to its end. *)
Definition script_started (h : Host) (program_info_log : string)
  (iw ih : float) : Script.State :=
  {| Script.page :=
       {| innerWidth := iw; innerHeight := ih; now := 0;
          console := script_log h program_info_log;
          uncaught := []; width := iw; height := ih;
          gl := script_context h iw ih;
          on_resize := true; on_mousemove := true;
          frame_request := None; this := None |};
     Script.alerts := [];
     Script.deleted := failed h;
     Script.locations := Some (script_locations (script_context h iw ih));
     Script.pointer := Some (iw / 2, ih / 2)%float;
     Script.render_request := true |}.


(** The context after one call of [render]. *)
Definition script_rendered (l : Script.Locations) (w : World)
  (p : float * float) (time : float) : Gl.context :=
  let g := gl w in
  let g := Gl.uniform2f (Script.resolutionUniformLocation l)
             (VNum (width w)) (VNum (height w)) g in
  let g := Gl.uniform2f (Script.mouseUniformLocation l)
             (VNum p.1) (VNum p.2) g in
  let g := Gl.uniform1f (Script.timeUniformLocation l)
             (VNum (time * 0.001)) g in
  Gl.draw 0 6 g.

(** The script has run to its end and [render] is pending: the listeners
    are registered, the bindings declared, nothing has been thrown, and the
    program is installed or not as [linked] says. *)
Definition script_going (l : Script.Locations) (linked : bool)
  (s : Script.State) : Prop :=
  on_resize (Script.page s) = true ∧
  on_mousemove (Script.page s) = true ∧
  Script.render_request s = true ∧
  Script.locations s = Some l ∧
  (∃ p, Script.pointer s = Some p) ∧
  uncaught (Script.page s) = [] ∧
  Gl.current (gl (Script.page s)) = linked.

(** The script has stopped before its end: only the resize listener is
    registered, and [render] was never requested. *)
Definition script_halted (s : Script.State) : Prop :=
  on_resize (Script.page s) = true ∧
  on_mousemove (Script.page s) = false ∧
  Script.render_request s = false.

(** A browser without WebGL. *)
Definition no_webgl : Host :=
  {| element := element browser; webgl := false;
     compile_status := λ _, true;
     shader_info_log := λ _, EmptyString;
     link_status := true;
     attach_null_throws := true |}.


(** *** The two fragment programs *)

Section ScriptInputs.

Import Shader.
Context {F : Type} `{GLFloat F}.

(** The uniforms with which the program of the class is the program of the
    script: speed 1, strength 1.5 and the palette written in the script. *)
Definition script_inputs (u_resolution u_mouse : vec2 F) (u_time : F)
  : inputs F :=
  {| Shader.u_resolution := u_resolution;
     Shader.u_mouse := u_mouse;
     Shader.u_time := u_time;
     Shader.u_colorStart := Vec3 (lit 0.05) (lit 0.08) (lit 0.12);
     Shader.u_colorEnd := Vec3 (lit 0.2) (lit 0.5) (lit 0.55);
     Shader.u_speed := lit 1;
     Shader.u_strength := lit 1.5 |}.

End ScriptInputs.

(** A page without the canvas of the script. *)
Definition no_canvas : Host :=
  {| element := λ _, false; webgl := true;
     compile_status := λ _, true;
     shader_info_log := λ _, EmptyString;
     link_status := true;
     attach_null_throws := true |}.

(** Nothing of the script listens or waits. *)
Definition script_unheard (s : Script.State) : Prop :=
  on_resize (Script.page s) = false ∧
  on_mousemove (Script.page s) = false ∧
  Script.render_request s = false.

(** *** The demo page

    The options [js/demo.js] passes to the constructor, for the canvas
    [fractal-canvas]. *)
Definition demo_options : value :=
  VObj {[ "colors" :=
            VObj {[ "start" := VArr [VNum 0.05; VNum 0.08; VNum 0.12];
                    "end" := VArr [VNum 0.2; VNum 0.5; VNum 0.55] ]};
          "interaction" :=
            VObj {[ "enabled" := VBool true; "strength" := VNum 1.5 ]};
          "animation" := VObj {[ "speed" := VNum 1.5 ]} ]}.

(** * Properties *)

(** ** Configuration *)

Example resolve_default :
  resolve_config (VObj ∅) = Some default_config ∧
  configured VUndefined = Some default_config.
Proof. split; reflexivity. Qed.

Example resolve_demo_speed :
  animation <$> resolve_config (nested "animation" "speed" (VNum 1.5)) =
  Some {| speed := VNum 1.5 |}.
Proof. reflexivity. Qed.

Example resolve_null : resolve_config VNull = None.
Proof. reflexivity. Qed.

Lemma configured_inv options cfg :
  configured options = Some cfg →
  cfg = {|
    colors := {|
      start := Js.or (supplied options "colors" "start") default_start;
      end_ := Js.or (supplied options "colors" "end") default_end |};
    interaction := {|
      enabled := strict_ne_bool (supplied options "interaction" "enabled")
                   false;
      strength := Js.or (supplied options "interaction" "strength")
                    (VNum 1.5) |};
    animation := {|
      speed := Js.or (supplied options "animation" "speed") (VNum 1.0) |}
  |}.
Proof.
  unfold configured, supplied, resolve_config, member.
  destruct (nullish (param_default options (VObj ∅))); simpl; [done|].
  by intros [= <-].
Qed.


(** [0 || d] is [d], as [undefined || d] is. *)
Lemma or_zero_as_absent d : Js.or (VNum 0) d = Js.or VUndefined d.
Proof. reflexivity. Qed.

(** C9.  A supplied [animation.speed] or [interaction.strength] of 0 is
    treated as absent: the resolved configuration holds the default (speed
    1.0, strength 1.5), not 0. *)
Theorem zero_resolves_to_default options cfg :
  configured options = Some cfg →
  (supplied options "animation" "speed" = VNum 0 →
   speed (animation cfg) = VNum 1.0) ∧
  (supplied options "interaction" "strength" = VNum 0 →
   strength (interaction cfg) = VNum 1.5).
Proof.
  intros Hcfg. rewrite (configured_inv _ _ Hcfg). simpl.
  split; intros ->; done.
Qed.

Lemma zero_resolves_to_default_witness :
  ∃ cfg, configured zero_options = Some cfg ∧
         speed (animation cfg) = VNum 1.0 ∧
         strength (interaction cfg) = VNum 1.5.
Proof.
  eexists. split; [reflexivity|].
  pose proof (zero_resolves_to_default zero_options _ eq_refl) as [Hs Ht].
  split; [apply Hs | apply Ht]; reflexivity.
Defined.

(** C10.  Interaction is enabled unless the supplied [interaction.enabled]
    is exactly the boolean [false]: every other value (absent, 0, null, a
    string, ...) resolves [enabled] to [true]. *)
Theorem interaction_enabled_unless_false options cfg :
  configured options = Some cfg →
  (enabled (interaction cfg) = false ↔
   supplied options "interaction" "enabled" = VBool false) ∧
  (supplied options "interaction" "enabled" ≠ VBool false →
   enabled (interaction cfg) = true).
Proof.
  intros Hcfg. rewrite (configured_inv _ _ Hcfg). simpl.
  destruct (supplied options "interaction" "enabled") as [| |[]| | | |];
    simpl; split; try split; try done.
Qed.

Lemma interaction_enabled_unless_false_witness :
  Forall (λ v, ∃ cfg,
            configured (nested "interaction" "enabled" v) = Some cfg ∧
            enabled (interaction cfg) = true)
         [VUndefined; VNum 0; VNull; VStr "false"; VBool true].
Proof.
  repeat constructor; (eexists; split; [reflexivity|]);
    match goal with
    | |- enabled (interaction ?c) = _ =>
        apply (interaction_enabled_unless_false
                 (nested "interaction" "enabled" _) c eq_refl)
    end; discriminate.
Defined.

(** ** Reasoning about computations on the page *)

Section Preserves.

Context {T : Type} (f : World → T).

Lemma preserves_ret {A} (a : A) : preserves f (ret a).
Proof. done. Qed.

Lemma preserves_throw {A} e : preserves f (@throw A e).
Proof. done. Qed.

Lemma preserves_read {A} (g : World → A) : preserves f (read g).
Proof. done. Qed.

Lemma preserves_update g : (∀ w, f (g w) = f w) → preserves f (update g).
Proof. intros Hg w. apply Hg. Qed.

Lemma preserves_bind {A B} (m : M A) (k : A → M B) :
  preserves f m → (∀ a, preserves f (k a)) → preserves f (bind m k).
Proof.
  intros Hm Hk w. unfold bind. specialize (Hm w).
  destruct (m w) as [[a|e] w']; simpl in *; [|done].
  by rewrite Hk.
Qed.

Lemma preserves_run_task (m : M unit) w :
  preserves f m → (∀ u w, f (with_uncaught u w) = f w) →
  f (run_task m w) = f w.
Proof.
  intros Hm Hu. unfold run_task. specialize (Hm w).
  destruct (m w) as [[a|e] w']; simpl in *; [done|]. by rewrite Hu.
Qed.

End Preserves.

Ltac head_of t :=
  lazymatch t with
  | ?f _ => head_of f
  | _ => t
  end.

(** Steps through a computation built from the combinators, unfolding the
    methods on the way and closing the updates by computation. *)
Ltac preserve :=
  repeat first
    [ apply preserves_ret | apply preserves_throw | apply preserves_read
    | apply preserves_update; intros []; done
    | apply preserves_bind; [|intros ?]
    | match goal with
      | |- preserves _ (if ?b then _ else _) => destruct b
      | |- preserves _ (match ?o with _ => _ end) => destruct o
      | |- preserves _ ?m => let c := head_of m in progress unfold c
      end ].

(** Reads a field of an updated world, leaving every other term folded. *)
Ltac fields_of_world :=
  cbn [innerWidth innerHeight now console uncaught width height gl
       on_resize on_mousemove frame_request this
       with_window with_now with_console with_uncaught with_canvas with_gl
       with_on_resize with_on_mousemove with_frame_request with_this] in *.

Lemma bind_returned {A B} (m : M A) (k : A → M B) w a w' :
  m w = (Returned a, w') → bind m k w = k a w'.
Proof. unfold bind. by intros ->. Qed.

Lemma bind_thrown {A B} (m : M A) (k : A → M B) w e w' :
  m w = (Thrown e, w') → bind m k w = (Thrown e, w').
Proof. unfold bind. by intros ->. Qed.

Lemma run_snoc es e w : run (es ++ [e]) w = dispatch e (run es w).
Proof. unfold run. by rewrite foldl_app. Qed.

Lemma run_cons e es w : run (e :: es) w = run es (dispatch e w).
Proof. done. Qed.

(** ** Counting draw calls *)

Lemma draw_calls_issue c g :
  Gl.draw_calls (Gl.issue c g)
  = Gl.draw_calls g + (if Gl.is_draw c then 1 else 0).
Proof.
  unfold Gl.draw_calls. simpl. rewrite filter_app, length_app. f_equal.
  by destruct c.
Qed.

Lemma draw_calls_write loc vs g :
  Gl.draw_calls (Gl.write loc vs g) = Gl.draw_calls g.
Proof. by destruct loc. Qed.

Lemma draw_calls_attach s g : Gl.draw_calls (Gl.attach s g) = Gl.draw_calls g.
Proof.
  transitivity (Gl.draw_calls (Gl.issue (Gl.AttachShader (Some s)) g));
    [done|]. rewrite draw_calls_issue. simpl. lia.
Qed.

Lemma draw_calls_link ok g : Gl.draw_calls (Gl.link ok g) = Gl.draw_calls g.
Proof.
  transitivity (Gl.draw_calls (Gl.issue Gl.LinkProgram g)); [done|].
  rewrite draw_calls_issue. simpl. lia.
Qed.

Lemma draw_calls_use g : Gl.draw_calls (Gl.use g) = Gl.draw_calls g.
Proof.
  transitivity (Gl.draw_calls (Gl.issue Gl.UseProgram g)); [done|].
  rewrite draw_calls_issue. simpl. lia.
Qed.

Lemma draw_calls_uniform1f loc v g :
  Gl.draw_calls (Gl.uniform1f loc v g) = Gl.draw_calls g.
Proof.
  unfold Gl.uniform1f. rewrite draw_calls_write, draw_calls_issue. simpl. lia.
Qed.

Lemma draw_calls_uniform2f loc a b g :
  Gl.draw_calls (Gl.uniform2f loc a b g) = Gl.draw_calls g.
Proof.
  unfold Gl.uniform2f. rewrite draw_calls_write, draw_calls_issue. simpl. lia.
Qed.

Lemma draw_calls_uniform3fv loc xs g :
  Gl.draw_calls (Gl.uniform3fv loc xs g) = Gl.draw_calls g.
Proof.
  unfold Gl.uniform3fv. case_bool_decide;
    rewrite ?draw_calls_write, draw_calls_issue; simpl; lia.
Qed.

Lemma draw_calls_draw a b g :
  Gl.draw_calls (Gl.draw a b g) = S (Gl.draw_calls g).
Proof.
  transitivity (Gl.draw_calls (Gl.issue (Gl.DrawArrays a b) g)); [done|].
  rewrite draw_calls_issue. simpl. lia.
Qed.

Ltac count_draws :=
  repeat first
    [ rewrite draw_calls_draw | rewrite draw_calls_uniform1f
    | rewrite draw_calls_uniform2f | rewrite draw_calls_uniform3fv
    | rewrite draw_calls_use | rewrite draw_calls_link
    | rewrite draw_calls_attach ];
  unfold Gl.draw_calls; simpl; rewrite ?filter_app, ?length_app; simpl; lia.

Lemma draw_calls_rendered l w i cs ce :
  Gl.draw_calls (rendered l w i cs ce) = S (Gl.draw_calls (gl w)).
Proof. unfold rendered, uploaded. count_draws. Qed.

(** ** The methods, one by one *)

Lemma resize_run w :
  resize w =
  (Returned (),
   with_gl (Gl.issue (Gl.Viewport 0 0 (innerWidth w) (innerHeight w)) (gl w))
     (with_canvas (innerWidth w) (innerHeight w) w)).
Proof. by destruct w. Qed.

(** The handler of mousemove, when it runs on a constructed instance. *)
Lemma on_mouse_run x y w i :
  this w = Some i →
  on_mouse x y w =
  (Returned (),
   with_this (Some {| config := config i; mouseX := x;
                      mouseY := height w - y;
                      startTime := startTime i |}) w).
Proof. intros Hi. destruct w; simpl in *; by subst. Qed.

Lemma on_mouse_idle x y w :
  this w = None → on_mouse x y w = (Thrown "TypeError", w).
Proof. intros Hi. destruct w; simpl in *; by subst. Qed.

Lemma createBuffer_run w :
  createBuffer w = (Returned (), with_gl (buffered (gl w)) w).
Proof. by destruct w. Qed.

Lemma startAnimation_run w : startAnimation w = loop (located (gl w)) w.
Proof. done. Qed.

Lemma loop_run l w i cs ce :
  this w = Some i →
  start (colors (config i)) = VArr cs →
  end_ (colors (config i)) = VArr ce →
  loop l w =
  (Returned (),
   with_frame_request (Some l) (with_gl (rendered l w i cs ce) w)).
Proof.
  intros Hi Hs He. destruct w; simpl in *; subst.
  unfold loop, uniform3fv, requestAnimationFrame, fields, gl_do, bind,
    update, read, ret. simpl.
  rewrite Hs. simpl. by rewrite He.
Qed.

Section Pipeline.

Context (h : Host).

Lemma compileShader_run type w :
  compileShader h type w =
  (Returned (compilation h type),
   with_console (console w ++ logged h type)
     (with_gl (compiled type (gl w)) w)).
Proof.
  unfold compileShader, compilation, logged, console_error, gl_do, bind,
    update, ret.
  destruct w, (compile_status h type); simpl; by rewrite ?app_nil_r.
Qed.

(** [createShaders] runs to its end unless a null shader makes
    [attachShader] throw. *)
Lemma createShaders_run w :
  attach_null_throws h = false ∨
  (compile_status h Gl.VERTEX_SHADER = true ∧
   compile_status h Gl.FRAGMENT_SHADER = true) →
  createShaders h w =
  (Returned (),
   with_console
     (console w ++ logged h Gl.VERTEX_SHADER ++ logged h Gl.FRAGMENT_SHADER)
     (with_gl (programmed h (gl w)) w)).
Proof.
  intros Hok. unfold createShaders.
  erewrite bind_returned by apply compileShader_run.
  erewrite bind_returned by apply compileShader_run.
  unfold programmed, compilation, attachShader, gl_do, bind, update.
  destruct w; simpl. rewrite <- (assoc_L (++)).
  destruct Hok as [->|[-> ->]]; simpl;
    by destruct (compile_status h Gl.VERTEX_SHADER),
               (compile_status h Gl.FRAGMENT_SHADER).
Qed.

Lemma createShaders_throws type w :
  attach_null_throws h = true → compile_status h type = false →
  ∃ g, createShaders h w =
       (Thrown "TypeError",
        with_console
          (console w ++ logged h Gl.VERTEX_SHADER
           ++ logged h Gl.FRAGMENT_SHADER)
          (with_gl g w)) ∧
       Gl.draw_calls g = Gl.draw_calls (gl w) ∧
       Gl.frames g = Gl.frames (gl w).
Proof.
  intros Hthrows Hfail. unfold createShaders.
  erewrite bind_returned by apply compileShader_run.
  erewrite bind_returned by apply compileShader_run.
  unfold compilation, attachShader, gl_do, bind, update, throw.
  rewrite Hthrows. destruct w; simpl. rewrite <- (assoc_L (++)).
  destruct type; rewrite Hfail; simpl.
  - eexists. split; [reflexivity|]. split; [count_draws|done].
  - destruct (compile_status h Gl.VERTEX_SHADER); simpl;
      (eexists; split; [reflexivity|]); (split; [count_draws|done]).
Qed.

End Pipeline.

(** ** What the host's notifications can change *)

Section Notifications.

(** No handler registers or removes the mousemove listener. *)
Lemma dispatch_on_mousemove e w :
  on_mousemove (dispatch e w) = on_mousemove w.
Proof.
  destruct e as [iw ih|x y|t]; simpl.
  - destruct (on_resize w); [|done].
    rewrite preserves_run_task; [done|preserve|done].
  - destruct (on_mousemove w) eqn:E; [|done].
    rewrite preserves_run_task; [done|preserve|done].
  - destruct (frame_request w); [|done].
    rewrite preserves_run_task; [done|preserve|done].
Qed.

Lemma run_on_mousemove es w : on_mousemove (run es w) = on_mousemove w.
Proof.
  revert w. induction es as [|e es IH]; intros w; [done|].
  by rewrite run_cons, IH, dispatch_on_mousemove.
Qed.

(** Without the listener, nothing assigns the fields after construction. *)
Lemma dispatch_this_unheard e w :
  on_mousemove w = false → this (dispatch e w) = this w.
Proof.
  intros Hoff. destruct e as [iw ih|x y|t]; simpl.
  - destruct (on_resize w); [|done].
    rewrite preserves_run_task; [done|preserve|done].
  - by rewrite Hoff.
  - destruct (frame_request w); [|done].
    rewrite preserves_run_task; [done|preserve|done].
Qed.

Lemma run_this_unheard es w :
  on_mousemove w = false → this (run es w) = this w.
Proof.
  revert w. induction es as [|e es IH]; intros w Hoff; [done|].
  rewrite run_cons, IH, dispatch_this_unheard; [done..|].
  by rewrite dispatch_on_mousemove.
Qed.

(** Once assigned, the fields stay assigned and keep their configuration
    and start time. *)
Lemma dispatch_this e w i :
  this w = Some i →
  ∃ i', this (dispatch e w) = Some i' ∧ config i' = config i ∧
        startTime i' = startTime i.
Proof.
  intros Hi. destruct e as [iw ih|x y|t]; simpl.
  - destruct (on_resize w); [|by eauto].
    rewrite preserves_run_task; [by eauto|preserve|done].
  - destruct (on_mousemove w); [|by eauto].
    unfold run_task. rewrite (on_mouse_run _ _ _ _ Hi). simpl. eauto.
  - destruct (frame_request w); [|by eauto].
    rewrite preserves_run_task; [by eauto|preserve|done].
Qed.

Lemma run_this es w i :
  this w = Some i →
  ∃ i', this (run es w) = Some i' ∧ config i' = config i ∧
        startTime i' = startTime i.
Proof.
  revert w i. induction es as [|e es IH]; intros w i Hi; [by eauto|].
  rewrite run_cons. destruct (dispatch_this e w i Hi) as (i' & Hi' & Hc & Ht).
  destruct (IH _ _ Hi') as (i'' & ? & ? & ?).
  exists i''. split; [done|]. split; congruence.
Qed.

(** While the page is idle its console, errors and context stay put. *)
Lemma dispatch_idle e w :
  idle w → idle (dispatch e w) ∧ quiet (dispatch e w) = quiet w.
Proof.
  intros (Hr & Hm & Hf). destruct w; simpl in *; subst.
  by destruct e.
Qed.

Lemma run_idle es w : idle w → idle (run es w) ∧ quiet (run es w) = quiet w.
Proof.
  revert w. induction es as [|e es IH]; intros w Hidle; [done|].
  rewrite run_cons. destruct (dispatch_idle e w Hidle) as [Hidle' Hq].
  destruct (IH _ Hidle') as [? Hq']. split; [done|congruence].
Qed.

(** With no frame requested, notifications issue no draw call and request
    no frame. *)
Lemma dispatch_stalled e w :
  frame_request w = None →
  frame_request (dispatch e w) = None ∧
  Gl.draw_calls (gl (dispatch e w)) = Gl.draw_calls (gl w).
Proof.
  intros Hnone. destruct e as [iw ih|x y|t]; simpl.
  - destruct (on_resize w); [|done].
    unfold run_task. rewrite resize_run. simpl. split; [done|count_draws].
  - destruct (on_mousemove w); [|done].
    rewrite !preserves_run_task; [done|preserve|done|preserve|done].
  - by rewrite Hnone.
Qed.

Lemma run_stalled es w :
  frame_request w = None →
  frame_request (run es w) = None ∧
  Gl.draw_calls (gl (run es w)) = Gl.draw_calls (gl w).
Proof.
  revert w. induction es as [|e es IH]; intros w Hnone; [done|].
  rewrite run_cons. destruct (dispatch_stalled e w Hnone) as [Hnone' Hd].
  destruct (IH _ Hnone') as [? Hd']. split; [done|congruence].
Qed.

(** A refresh runs the requested pass, which requests the next one. *)
Lemma refresh_run t' w l i cs ce :
  frame_request w = Some l → this w = Some i →
  start (colors (config i)) = VArr cs →
  end_ (colors (config i)) = VArr ce →
  dispatch (Refresh t') w =
  with_frame_request (Some l)
    (with_gl (rendered l (with_now t' w) i cs ce) (with_now t' w)).
Proof.
  intros Hl Hi Hs He. simpl. rewrite Hl. unfold run_task.
  by erewrite loop_run.
Qed.


End Notifications.

(** ** Construction *)

Lemma construct_unavailable h id options iw ih t :
  element h id = false ∨ webgl h = false →
  ∃ line, SurfaceUnavailable id line ∧
          construct h id options (load iw ih t)
          = with_console [line] (load iw ih t).
Proof.
  unfold construct, constructor.
  destruct (element h id); simpl.
  - intros [|Hgl]; [done|]. rewrite Hgl. simpl.
    eexists. split; [apply context_not_obtainable|done].
  - intros _. eexists. split; [apply drawable_not_found|done].
Qed.

Section Construction.

Context (h : Host) (id : string) (options : value) (cfg : Config).
Context (iw ih t : float).
Hypothesis found : element h id = true.
Hypothesis supported : webgl h = true.
Hypothesis resolved : configured options = Some cfg.

Local Open Scope js_scope.

Lemma construct_ready :
  construct h id options (load iw ih t) =
  run_task (createShaders h;; createBuffer;; startAnimation)
           (ready cfg iw ih t).
Proof.
  unfold construct, constructor. rewrite found, supported. simpl.
  unfold configured in resolved. rewrite resolved.
  unfold run_task, init, fields, resize, gl_do, bind, read, update, ret.
  simpl. unfold ready. by destruct (enabled (interaction cfg)).
Qed.

Lemma construct_this :
  this (construct h id options (load iw ih t)) = Some (initial cfg t).
Proof.
  rewrite construct_ready, preserves_run_task; [done|preserve|done].
Qed.

Lemma construct_on_mousemove :
  on_mousemove (construct h id options (load iw ih t)) =
  enabled (interaction cfg).
Proof.
  rewrite construct_ready, preserves_run_task; [done|preserve|done].
Qed.

(** A null shader under a binding that throws ends the construction in
    [createShaders]. *)
Lemma construct_stopped type :
  attach_null_throws h = true → compile_status h type = false →
  ∃ g, construct h id options (load iw ih t) =
       with_uncaught ["TypeError"]
         (with_console
            (logged h Gl.VERTEX_SHADER ++ logged h Gl.FRAGMENT_SHADER)
            (with_gl g (ready cfg iw ih t))) ∧
       Gl.draw_calls g = 0 ∧ Gl.frames g = [].
Proof.
  intros Hthrows Hfail. rewrite construct_ready.
  destruct (createShaders_throws h type (ready cfg iw ih t) Hthrows Hfail)
    as (g & Hrun & Hdraws & Hframes).
  exists g. split; [|by rewrite Hdraws, Hframes].
  unfold run_task. by erewrite bind_thrown by apply Hrun.
Qed.

(** Otherwise it reaches [startAnimation], whatever compiled or linked. *)
Lemma construct_prepared :
  attach_null_throws h = false ∨
  (compile_status h Gl.VERTEX_SHADER = true ∧
   compile_status h Gl.FRAGMENT_SHADER = true) →
  construct h id options (load iw ih t) =
  run_task startAnimation (prepared h cfg iw ih t).
Proof.
  intros Hok. rewrite construct_ready. unfold run_task.
  erewrite bind_returned by by apply createShaders_run.
  erewrite bind_returned by apply createBuffer_run.
  done.
Qed.

Lemma construct_started cs ce :
  attach_null_throws h = false ∨
  (compile_status h Gl.VERTEX_SHADER = true ∧
   compile_status h Gl.FRAGMENT_SHADER = true) →
  start (colors cfg) = VArr cs → end_ (colors cfg) = VArr ce →
  construct h id options (load iw ih t) =
  let w := prepared h cfg iw ih t in
  let l := located (gl w) in
  with_frame_request (Some l)
    (with_gl (rendered l w (initial cfg t) cs ce) w).
Proof.
  intros Hok Hs He. rewrite construct_prepared by done.
  unfold run_task. rewrite startAnimation_run.
  by erewrite loop_run.
Qed.

Lemma draw_calls_prepared : Gl.draw_calls (gl (prepared h cfg iw ih t)) = 0.
Proof.
  unfold prepared, programmed, compilation.
  destruct (compile_status h Gl.VERTEX_SHADER),
    (compile_status h Gl.FRAGMENT_SHADER); reflexivity.
Qed.

End Construction.

(** ** Pointer tracking *)

(** C5.  With interaction enabled, a pointer-move notification at raw
    position (x, y) leaves the recorded pointer position equal to
    (x, surfaceHeight - y), with the height of the canvas at the time of the
    notification; this holds after any history of notifications. *)
Theorem pointer_move_recorded h id options cfg iw ih t es x y :
  element h id = true → webgl h = true →
  configured options = Some cfg →
  enabled (interaction cfg) = true →
  let w := run es (construct h id options (load iw ih t)) in
  let w' := dispatch (MouseMoved x y) w in
  mouseX <$> this w' = Some x ∧
  mouseY <$> this w' = Some (height w - y)%float ∧
  height w' = height w.
Proof.
  intros He Hw Hc Hon w w'.
  assert (on_mousemove w = true) as Hl.
  { unfold w. by erewrite run_on_mousemove, construct_on_mousemove. }
  destruct (run_this es (construct h id options (load iw ih t))
              (initial cfg t)) as (i & Hi & _).
  { by apply construct_this. }
  fold w in Hi. unfold w'. simpl. rewrite Hl.
  unfold run_task. by rewrite (on_mouse_run _ _ _ _ Hi).
Qed.

Lemma pointer_move_recorded_witness :
  let w := run [Resized 1024 768]
             (construct browser "fractal-canvas" VUndefined (load 800 600 0))
  in
  let w' := dispatch (MouseMoved 10 20) w in
  mouseX <$> this w' = Some 10%float ∧
  mouseY <$> this w' = Some (height w - 20)%float ∧
  height w' = height w.
Proof.
  eapply (pointer_move_recorded browser "fractal-canvas" VUndefined);
    reflexivity.
Defined.

Example pointer_move_recorded_values :
  let w' := run [Resized 1024 768; MouseMoved 10 20]
              (construct browser "fractal-canvas" VUndefined (load 800 600 0))
  in (mouseX <$> this w', mouseY <$> this w') = (Some 10, Some 748)%float.
Proof. vm_compute. reflexivity. Qed.

(** C6.  With interaction disabled at construction, the mousemove listener
    is never registered and the pointer position keeps its initial value
    (0, 0) whatever notifications arrive. *)
Theorem pointer_frozen_when_disabled h id options cfg iw ih t es :
  element h id = true → webgl h = true →
  configured options = Some cfg →
  enabled (interaction cfg) = false →
  let w0 := construct h id options (load iw ih t) in
  let w := run es w0 in
  on_mousemove w = false ∧
  (mouseX <$> this w0, mouseY <$> this w0) = (Some 0, Some 0)%float ∧
  (mouseX <$> this w, mouseY <$> this w) = (Some 0, Some 0)%float.
Proof.
  intros He Hw Hc Hoff w0 w.
  assert (on_mousemove w0 = false) as Hl.
  { unfold w0. by erewrite construct_on_mousemove. }
  unfold w. rewrite run_on_mousemove, run_this_unheard by done.
  unfold w0 in *. by erewrite construct_this.
Qed.

Lemma pointer_frozen_when_disabled_witness :
  let w0 := construct browser "fractal-canvas"
              (nested "interaction" "enabled" (VBool false)) (load 800 600 0)
  in
  let w := run [MouseMoved 10 20; Refresh 16; MouseMoved 30 40] w0 in
  on_mousemove w = false ∧
  (mouseX <$> this w0, mouseY <$> this w0) = (Some 0, Some 0)%float ∧
  (mouseX <$> this w, mouseY <$> this w) = (Some 0, Some 0)%float.
Proof.
  eapply (pointer_frozen_when_disabled browser "fractal-canvas"
            (nested "interaction" "enabled" (VBool false)));
    reflexivity.
Defined.

(** ** Start-up failures *)

(** C8.  When the named canvas is absent, or no WebGL context can be
    obtained, the failure is logged once (one console line, which stays the
    only one) and the frame loop never starts: whatever notifications
    follow, no command at all reached a WebGL context, so no draw call, and
    no frame is requested. *)
Theorem surface_unavailable_never_draws h id options iw ih t es :
  element h id = false ∨ webgl h = false →
  let w := run es (construct h id options (load iw ih t)) in
  (∃ line, SurfaceUnavailable id line ∧ console w = [line]) ∧
  uncaught w = [] ∧
  Gl.trace (gl w) = [] ∧
  Gl.draw_calls (gl w) = 0 ∧
  frame_request w = None.
Proof.
  intros Hfail w.
  destruct (construct_unavailable h id options iw ih t Hfail)
    as (line & Hline & Hw0).
  destruct (run_idle es (with_console [line] (load iw ih t)))
    as [(_ & _ & Hf) Hq]; [done|].
  unfold w. rewrite Hw0. injection Hq as Hc Hu Hg.
  rewrite Hc, Hu, Hg. eauto 10.
Qed.

Lemma surface_unavailable_never_draws_witness :
  let w := run [Refresh 16; MouseMoved 10 20; Resized 1024 768; Refresh 33]
             (construct browser "no-such-canvas" VUndefined (load 800 600 0))
  in
  (∃ line,
     SurfaceUnavailable "no-such-canvas" line ∧ console w = [line]) ∧
  uncaught w = [] ∧
  Gl.trace (gl w) = [] ∧
  Gl.draw_calls (gl w) = 0 ∧
  frame_request w = None.
Proof.
  apply (surface_unavailable_never_draws browser "no-such-canvas").
  left. reflexivity.
Defined.




(** ** The per-pixel program *)

Section EscapeLoop.

Import Shader.
Context {F : Type} `{GLArith F}.

Local Open Scope nat_scope.

Lemma orbit_succ c (z : vec2 F) k : orbit c z (S k) = step c (orbit c z k).
Proof. done. Qed.

Lemma orbit_step c (z : vec2 F) k : orbit c (step c z) k = orbit c z (S k).
Proof. unfold orbit. by rewrite Nat.iter_succ_r. Qed.

(** The loop with [n] passes left, started at [z] with the counter at
    [iter], stops after [k] passes that did not escape: at pass [k + 1] if
    that one escapes, or with its passes used up. *)
Lemma iterate_spec n c (z : vec2 F) iter :
  ∃ k, snd (iterate n c z iter) = iter + k ∧ k ≤ n ∧
       (∀ j, 1 ≤ j ≤ k → escaped (orbit c z j) = false) ∧
       (k < n → fst (iterate n c z iter) = orbit c z (S k) ∧
                escaped (orbit c z (S k)) = true) ∧
       (k = n → fst (iterate n c z iter) = orbit c z n).
Proof.
  revert z iter. induction n as [|n IH]; intros z iter; cbn [iterate].
  { exists 0. repeat split; try lia; done. }
  destruct (escaped (step c z)) eqn:Hesc; cbn [fst snd].
  { exists 0. repeat split; try lia; done. }
  destruct (IH (step c z) (S iter)) as (k & Hit & Hk & Hno & Hstop & Hend).
  exists (S k). split; [lia|]. split; [lia|]. split; [|split].
  - intros [|[|j]] Hj; [lia|done|].
    rewrite <- orbit_step. apply Hno. lia.
  - intros Hlt. rewrite <- (orbit_step c z (S k)). apply Hstop. lia.
  - intros [= ->]. rewrite <- orbit_step. by apply Hend.
Qed.

End EscapeLoop.

(** The loop run in binary64 on two plane points, with the base value of
    [c]: the origin stays bounded for the 100 iterations, (0.5, 0.5)
    escapes in the fourth. *)
Example orbit_of_origin_stays :
  @Shader.iterate float Binary64.arith 100 (Shader.Vec2 (-0.8) 0.156)%float
    (Shader.Vec2 0 0)%float 0%nat
  = (Shader.Vec2 (-0.02946041746549799)%float (-0.12907081387581429)%float,
     100%nat).
Proof. vm_compute. reflexivity. Qed.

Example orbit_of_corner_escapes :
  @Shader.iterate float Binary64.arith 100 (Shader.Vec2 (-0.8) 0.156)%float
    (Shader.Vec2 0.5 0.5)%float 0%nat
  = (Shader.Vec2 (-0.70407754906081621)%float (-2.8716802674894581)%float,
     3%nat).
Proof. vm_compute. reflexivity. Qed.


Section Fragment.

Import Shader.
Context {F : Type} `{GLFloat F}.

Local Open Scope glsl_scope.

(** What C2 says of a loop result [(z, iter)] for the parameter [c] and the
    plane point [uv] holds of every run of the loop. *)
Lemma loop_from (c uv : vec2 F) :
  let z := fst (iterate max_iter c uv 0) in
  let iter := snd (iterate max_iter c uv 0) in
  (iter ≤ 100)%nat ∧
  (∀ j, (1 ≤ j ≤ iter)%nat → escaped (orbit c uv j) = false) ∧
  ((iter < 100)%nat →
   escaped (orbit c uv (S iter)) = true ∧ z = orbit c uv (S iter)) ∧
  (iter = 100%nat → z = orbit c uv 100) ∧
  ((iter < 100)%nat ↔
   ∃ j, (1 ≤ j ≤ 100)%nat ∧ escaped (orbit c uv j) = true).
Proof.
  intros z iter.
  destruct (iterate_spec max_iter c uv 0)
    as (k & Hit & Hk & Hno & Hstop & Hend).
  change (iterate max_iter c uv 0).1 with z in Hstop, Hend.
  change (iterate max_iter c uv 0).2 with iter in Hit.
  rewrite Nat.add_0_l in Hit. rewrite <- Hit in Hk, Hno, Hstop, Hend.
  clear k Hit. change max_iter with 100%nat in Hk, Hstop, Hend.
  split; [done|]. split; [done|]. split; [|split; [done|split]].
  - intros Hlt. destruct (Hstop Hlt). done.
  - intros Hlt. exists (S iter). split; [lia|]. by apply Hstop.
  - intros (j & Hj & Hesc). destruct (decide (iter < 100)%nat); [done|].
    rewrite Hno in Hesc; [done|lia].
Qed.


(** C3.  A pixel that escapes ([iter < 100]) gets the linear blend of
    colorStart and colorEnd by the factor glow, with
    smooth = iter − log2(log2(z·z)) + 4, t = smooth/100 and
    glow = t^0.5 · (0.8 + 0.2·sin(0.5·elapsedSeconds)); a pixel that does
    not escape within the 100 iterations gets (0.01, 0.01, 0.02); the alpha
    component of the output is 1 in both cases. *)
Theorem pixel_colour (u : inputs F) (fragCoord : vec2 F) :
  let z := fst (fractal u fragCoord) in
  let iter := snd (fractal u fragCoord) in
  let elapsedSeconds := u_time u in
  let colorStart := u_colorStart u in
  let colorEnd := u_colorEnd u in
  let smooth := count iter - log2 (log2 (dot z z)) + lit 4 in
  let t := smooth / lit 100 in
  let glow :=
    pow t (lit 0.5) * (lit 0.8 + lit 0.2 * sin (lit 0.5 * elapsedSeconds)) in
  let blend :=
    Vec3 (r colorStart * (lit 1 - glow) + r colorEnd * glow)
         (g colorStart * (lit 1 - glow) + g colorEnd * glow)
         (b colorStart * (lit 1 - glow) + b colorEnd * glow) in
  ((iter < 100)%nat → rgb (main u fragCoord) = blend) ∧
  (¬ (iter < 100)%nat →
   rgb (main u fragCoord) = Vec3 (lit 0.01) (lit 0.01) (lit 0.02)) ∧
  a (main u fragCoord) = lit 1.
Proof.
  intros z iter elapsedSeconds colorStart colorEnd smooth t glow blend.
  unfold main. fold z iter.
  replace (fractal u fragCoord) with (z, iter)
    by (unfold z, iter; by destruct (fractal u fragCoord)).
  simpl. unfold shade, max_iter. split; [|split; [|done]].
  - intros Hlt. apply Nat.ltb_lt in Hlt. rewrite Hlt.
    unfold blend, glow, t, smooth, mix, elapsedSeconds.
    by rewrite (mul_comm (lit 0.2)), (mul_comm (lit 0.5)).
  - intros Hge. apply Nat.ltb_nlt in Hge. by rewrite Hge.
Qed.

(** The loop of the stand-alone script is the same loop, and stops the same
    way. *)
Lemma standalone_escape_time_loop (u_resolution u_mouse : vec2 F) (u_time : F)
  (fragCoord : vec2 F) :
  let c := Standalone.parameter u_resolution u_mouse u_time in
  let uv := Standalone.plane u_resolution fragCoord in
  let z := fst (Standalone.fractal u_resolution u_mouse u_time fragCoord) in
  let iter := snd (Standalone.fractal u_resolution u_mouse u_time fragCoord) in
  (iter ≤ 100)%nat ∧
  (∀ j, (1 ≤ j ≤ iter)%nat → escaped (orbit c uv j) = false) ∧
  ((iter < 100)%nat →
   escaped (orbit c uv (S iter)) = true ∧ z = orbit c uv (S iter)) ∧
  (iter = 100%nat → z = orbit c uv 100) ∧
  ((iter < 100)%nat ↔
   ∃ j, (1 ≤ j ≤ 100)%nat ∧ escaped (orbit c uv j) = true).
Proof. intros c uv. apply (loop_from c uv). Qed.

End Fragment.

(** ** The context across a frame *)

Lemma current_uploaded l w i cs ce :
  Gl.current (uploaded l w i cs ce) = Gl.current (gl w).
Proof.
  unfold uploaded, Gl.uniform3fv. destruct l as [[] [] [] [] [] [] []];
    repeat case_bool_decide; reflexivity.
Qed.

Lemma frames_uploaded l w i cs ce :
  Gl.frames (uploaded l w i cs ce) = Gl.frames (gl w).
Proof.
  unfold uploaded, Gl.uniform3fv. destruct l as [[] [] [] [] [] [] []];
    repeat case_bool_decide; reflexivity.
Qed.

Lemma current_rendered l w i cs ce :
  Gl.current (rendered l w i cs ce) = Gl.current (gl w).
Proof. apply current_uploaded. Qed.

Lemma frames_rendered l w i cs ce :
  Gl.frames (rendered l w i cs ce) =
  Gl.frames (gl w) ++
  (if Gl.current (gl w) then [Gl.store (uploaded l w i cs ce)] else []).
Proof.
  unfold rendered. simpl. rewrite current_uploaded, frames_uploaded.
  destruct (Gl.current (gl w)); by rewrite ?app_nil_r.
Qed.

(** With every location valid, the store holds what the pass uploaded. *)
Lemma store_uploaded w i cs ce :
  ∃ s, Gl.store (uploaded valid w i cs ce) =
       <["u_strength" := [strength (interaction (config i))]]>
         (<["u_speed" := [speed (animation (config i))]]> s) ∧
       s !! "u_resolution" = Some [VNum (width w); VNum (height w)] ∧
       s !! "u_mouse" = Some [VNum (mouseX i); VNum (mouseY i)] ∧
       s !! "u_time" = Some [VNum ((now w - startTime i) * 0.001)] ∧
       (length cs = 3 → s !! "u_colorStart" = Some cs) ∧
       (length ce = 3 → s !! "u_colorEnd" = Some ce).
Proof.
  unfold uploaded, Gl.uniform1f, Gl.uniform2f, Gl.uniform3fv.
  eexists. split; [reflexivity|].
  repeat case_bool_decide; simpl; by simplify_map_eq.
Qed.

Lemma coloured_uploaded w i cs ce :
  length cs = 3 → length ce = 3 →
  coloured cs ce (Gl.store (uploaded valid w i cs ce)).
Proof.
  intros Hcs Hce.
  destruct (store_uploaded w i cs ce) as (s & -> & _ & _ & _ & Hs & He).
  unfold coloured. rewrite !lookup_insert_ne by done. auto.
Qed.

(** The state of the program when [startAnimation] is reached. *)
Lemma linked_prepared h cfg iw ih t :
  Gl.linked (gl (prepared h cfg iw ih t)) =
  compile_status h Gl.VERTEX_SHADER && compile_status h Gl.FRAGMENT_SHADER
  && link_status h.
Proof.
  unfold prepared, programmed, compilation.
  by destruct (compile_status h Gl.VERTEX_SHADER),
    (compile_status h Gl.FRAGMENT_SHADER).
Qed.

Lemma current_prepared h cfg iw ih t :
  Gl.current (gl (prepared h cfg iw ih t)) =
  Gl.linked (gl (prepared h cfg iw ih t)).
Proof.
  unfold prepared, programmed, compilation.
  by destruct (compile_status h Gl.VERTEX_SHADER),
    (compile_status h Gl.FRAGMENT_SHADER).
Qed.

Lemma frames_prepared h cfg iw ih t :
  Gl.frames (gl (prepared h cfg iw ih t)) = [].
Proof.
  unfold prepared, programmed, compilation.
  by destruct (compile_status h Gl.VERTEX_SHADER),
    (compile_status h Gl.FRAGMENT_SHADER).
Qed.

Lemma located_valid g : Gl.linked g = true → located g = valid.
Proof. unfold located, Gl.uniform_location. by intros ->. Qed.

Section Animated.

Context (cfg : Config) (t0 : float) (cs ce : list value).
Hypothesis start_is : start (colors cfg) = VArr cs.
Hypothesis end_is : end_ (colors cfg) = VArr ce.

Lemma dispatch_animated e w :
  animated cfg t0 cs ce w → animated cfg t0 cs ce (dispatch e w).
Proof.
  intros ((i & Hi & Hcfg & Ht) & Hframes & Hloc).
  destruct e as [iw ih|x y|t]; simpl.
  - destruct (on_resize w); unfold run_task; rewrite ?resize_run;
      (split; [by eauto|by split]).
  - destruct (on_mousemove w); [|split; [by eauto|by split]].
    unfold run_task. rewrite (on_mouse_run _ _ _ _ Hi).
    split; [by eauto|by split].
  - destruct (frame_request w) as [l|] eqn:Hl.
    2: { split; [by eauto|]. split; [done|]. fields_of_world.
         intros l. by rewrite Hl. }
    unfold run_task. erewrite loop_run; [|apply Hi|by rewrite Hcfg..].
    split; [by eauto|]. fields_of_world.
    rewrite frames_rendered, current_rendered. fields_of_world.
    split; [|by intros ? [= <-]; auto].
    intros Hcs Hce. apply Forall_app. split; [by apply Hframes|].
    destruct (Gl.current (gl w)) eqn:Hcur; [|done].
    rewrite (Hloc l) by done. apply Forall_singleton.
    by apply coloured_uploaded.
Qed.

Lemma run_animated es w :
  animated cfg t0 cs ce w → animated cfg t0 cs ce (run es w).
Proof.
  revert w. induction es as [|e es IH]; intros w Hw; [done|].
  rewrite run_cons. by apply IH, dispatch_animated.
Qed.

Lemma dispatch_running e w :
  animated cfg t0 cs ce w → running w → running (dispatch e w).
Proof.
  intros ((i & Hi & Hcfg & Ht) & _ & _) [Hl Hcur].
  destruct e as [iw ih|x y|t]; simpl.
  - by destruct (on_resize w); unfold run_task; rewrite ?resize_run.
  - destruct (on_mousemove w); [|done].
    unfold run_task. by rewrite (on_mouse_run _ _ _ _ Hi).
  - rewrite Hl. unfold run_task.
    erewrite loop_run; [|apply Hi|by rewrite Hcfg..].
    split; [done|]. fields_of_world. by rewrite current_rendered.
Qed.

Lemma run_running es w :
  animated cfg t0 cs ce w → running w → running (run es w).
Proof.
  revert w. induction es as [|e es IH]; intros w Hw Hr; [done|].
  rewrite run_cons.
  by apply IH; [apply dispatch_animated|apply dispatch_running].
Qed.

Context (h : Host) (id : string) (options : value) (iw ih : float).
Hypothesis found : element h id = true.
Hypothesis supported : webgl h = true.
Hypothesis resolved : configured options = Some cfg.

Lemma started_animated :
  attach_null_throws h = false ∨
  (compile_status h Gl.VERTEX_SHADER = true ∧
   compile_status h Gl.FRAGMENT_SHADER = true) →
  animated cfg t0 cs ce (construct h id options (load iw ih t0)).
Proof.
  intros Hok. erewrite construct_started by done. cbv zeta.
  split; [by eexists|]. fields_of_world.
  rewrite frames_rendered, current_rendered, frames_prepared,
    current_prepared.
  split.
  - intros Hcs Hce.
    destruct (Gl.linked (gl (prepared h cfg iw ih t0))) eqn:Hlinked; [|done].
    rewrite located_valid by done. apply Forall_singleton.
    by apply coloured_uploaded.
  - intros l [= <-] Hlinked. by apply located_valid.
Qed.

Lemma stopped_animated type :
  attach_null_throws h = true → compile_status h type = false →
  animated cfg t0 cs ce (construct h id options (load iw ih t0)).
Proof.
  intros Hthrows Hfail.
  edestruct (construct_stopped h id options cfg iw ih t0)
    as (g & -> & _ & Hg); [done..|].
  split; [by eexists|]. fields_of_world. rewrite Hg. by split.
Qed.

Lemma construct_animated :
  animated cfg t0 cs ce (construct h id options (load iw ih t0)).
Proof.
  destruct (attach_null_throws h) eqn:Hthrows;
    [|by apply started_animated; left].
  destruct (compile_status h Gl.VERTEX_SHADER) eqn:HV;
    [|by eapply stopped_animated].
  destruct (compile_status h Gl.FRAGMENT_SHADER) eqn:HF;
    [|by eapply stopped_animated].
  apply started_animated. by right.
Qed.

Lemma construct_running :
  compile_status h Gl.VERTEX_SHADER = true →
  compile_status h Gl.FRAGMENT_SHADER = true →
  link_status h = true →
  running (construct h id options (load iw ih t0)).
Proof.
  intros HV HF Hlink. erewrite construct_started by eauto.
  assert (Gl.linked (gl (prepared h cfg iw ih t0)) = true) as Hlinked.
  { by rewrite linked_prepared, HV, HF, Hlink. }
  split; cbv zeta; fields_of_world.
  - by rewrite located_valid.
  - by rewrite current_rendered, current_prepared.
Qed.

End Animated.

(** ** Colours *)




Example colours_round_trip_frames :
  let w := run [Refresh 16; MouseMoved 10 20; Refresh 33]
             (construct browser "fractal-canvas" palette (load 800 600 0)) in
  (λ f, f !! "u_colorStart") <$> Gl.frames (gl w) =
  replicate 3 (Some [VNum 0.1; VNum 0.2; VNum 0.3]).
Proof. vm_compute. reflexivity. Qed.

(** ** The parameter of the iteration *)

Section FrameParameter.

Import Shader.
Context {F : Type} `{GLFloat F}.

Local Open Scope glsl_scope.

(** The program computes that formula from its uniforms. *)
Lemma parameter_formula (u : inputs F) :
  parameter u =
  c_of (u_time u) (u_speed u) (u_strength u) (u_mouse u) (u_resolution u).
Proof.
  unfold parameter, c_of. simpl.
  by rewrite (mul_comm (lit 0.3)), (mul_comm (lit 0.2)).
Qed.

(** What a draw reads after a pass of [loop] with valid locations. *)
Lemma inputs_uploaded w i cs ce :
  let u := inputs_of (Gl.store (uploaded valid w i cs ce)) in
  u_resolution u = Vec2 (upload (VNum (width w))) (upload (VNum (height w))) ∧
  u_mouse u = Vec2 (upload (VNum (mouseX i))) (upload (VNum (mouseY i))) ∧
  u_time u = upload (VNum ((now w - startTime i) * 0.001)%float) ∧
  u_speed u = upload (speed (animation (config i))) ∧
  u_strength u = upload (strength (interaction (config i))).
Proof.
  destruct (store_uploaded w i cs ce) as (s & Hstore & Hr & Hm & Ht & _).
  cbv zeta. unfold inputs_of, read2, read1.
  cbn [u_resolution u_mouse u_time u_speed u_strength]. rewrite Hstore.
  split_and!; rewrite ?lookup_insert_ne by done;
    rewrite ?lookup_insert_eq, ?Hr, ?Hm, ?Ht; done.
Qed.

(** C4.  In every frame the per-pixel program uses
    c = (-0.8, 0.156) + autoAnim + mouseOffset, with
    autoAnim = (sin(0.3·t)·0.1, cos(0.2·t)·0.1), t = elapsedSeconds · speed
    and mouseOffset = (pointer/resolution − 0.5) · strength, where the
    elapsed seconds, the pointer and the resolution are read from the clock,
    the instance and the canvas when the frame is drawn, and the speed and
    the strength from the configuration.  This holds for the frame the
    constructor draws and for the frame drawn at each refresh, after any
    history of notifications. *)
Theorem parameter_of_every_frame h id options cfg iw ih t0 cs ce es t' :
  element h id = true → webgl h = true →
  configured options = Some cfg →
  compile_status h Gl.VERTEX_SHADER = true →
  compile_status h Gl.FRAGMENT_SHADER = true →
  link_status h = true →
  start (colors cfg) = VArr cs → end_ (colors cfg) = VArr ce →
  let w0 := construct h id options (load iw ih t0) in
  let w := run es w0 in
  let w' := dispatch (Refresh t') w in
  let speed := upload (speed (animation cfg)) in
  let strength := upload (strength (interaction cfg)) in
  (∃ f, Gl.frames (gl w0) = [f] ∧
        parameter (inputs_of f) =
        c_of (upload (VNum ((t0 - t0) * 0.001)%float)) speed strength
          (Vec2 (upload (VNum 0%float)) (upload (VNum 0%float)))
          (Vec2 (upload (VNum iw)) (upload (VNum ih)))) ∧
  (∃ i f, this w = Some i ∧
          Gl.frames (gl w') = (Gl.frames (gl w) ++ [f])%list ∧
          parameter (inputs_of f) =
          c_of (upload (VNum ((t' - t0) * 0.001)%float)) speed strength
            (Vec2 (upload (VNum (mouseX i))) (upload (VNum (mouseY i))))
            (Vec2 (upload (VNum (width w))) (upload (VNum (height w))))).
Proof.
  intros Hfound Hgl Hcfg HV HF Hlink Hstart Hend w0 w w' speed strength.
  assert (animated cfg t0 cs ce w0) as Hanim0 by by apply construct_animated.
  assert (running w0) as Hrun0 by by eapply construct_running.
  split.
  - unfold w0. erewrite construct_started by eauto. cbv zeta.
    fields_of_world.
    rewrite frames_rendered, frames_prepared, current_prepared,
      linked_prepared, HV, HF, Hlink.
    rewrite located_valid by by rewrite linked_prepared, HV, HF, Hlink.
    eexists. split; [reflexivity|]. rewrite parameter_formula.
    by destruct (inputs_uploaded (prepared h cfg iw ih t0) (initial cfg t0)
                   cs ce) as (-> & -> & -> & -> & ->).
  - destruct (run_animated cfg t0 cs ce Hstart Hend es w0 Hanim0)
      as ((i & Hi & Hc & Ht) & _ & _).
    destruct (run_running cfg t0 cs ce Hstart Hend es w0 Hanim0 Hrun0)
      as [Hl Hcur].
    fold w in Hi, Hl, Hcur. exists i. eexists. split; [done|].
    unfold w'. erewrite refresh_run; [|done..|by rewrite Hc|by rewrite Hc].
    fields_of_world. rewrite frames_rendered. fields_of_world.
    rewrite Hcur. split; [reflexivity|]. rewrite parameter_formula.
    destruct (inputs_uploaded (with_now t' w) i cs ce)
      as (-> & -> & -> & -> & ->).
    fields_of_world. by rewrite Hc, Ht.
Qed.

End FrameParameter.

Import Ideal.

Lemma parameter_of_every_frame_witness :
  let w0 := construct browser "fractal-canvas" VUndefined (load 800 600 0) in
  let w := run [MouseMoved 10 20] w0 in
  let w' := dispatch (Refresh 16) w in
  let speed : R := Shader.upload (VNum 1) in
  let strength : R := Shader.upload (VNum 1.5) in
  (∃ f, Gl.frames (gl w0) = [f] ∧
        Shader.parameter (Shader.inputs_of f) =
        c_of (Shader.upload (VNum ((0 - 0) * 0.001)%float)) speed strength
          (Shader.Vec2 (Shader.upload (VNum 0%float))
                       (Shader.upload (VNum 0%float)))
          (Shader.Vec2 (Shader.upload (VNum 800%float))
                       (Shader.upload (VNum 600%float)))) ∧
  (∃ i f, this w = Some i ∧
          Gl.frames (gl w') = Gl.frames (gl w) ++ [f] ∧
          Shader.parameter (Shader.inputs_of f) =
          c_of (Shader.upload (VNum ((16 - 0) * 0.001)%float)) speed strength
            (Shader.Vec2 (Shader.upload (VNum (mouseX i)))
                         (Shader.upload (VNum (mouseY i))))
            (Shader.Vec2 (Shader.upload (VNum (width w)))
                         (Shader.upload (VNum (height w))))).
Proof.
  apply (parameter_of_every_frame (F:=R) browser "fractal-canvas"
           VUndefined default_config 800 600 0
           [VNum 0.05; VNum 0.08; VNum 0.12] [VNum 0.2; VNum 0.5; VNum 0.55]
           [MouseMoved 10 20] 16); reflexivity.
Defined.

Example frame_after_pointer_move :
  let w := run [MouseMoved 10 20; Refresh 16]
             (construct browser "fractal-canvas" VUndefined (load 800 600 0))
  in
  (λ f, (f !! "u_mouse", f !! "u_resolution", f !! "u_time"))
    <$> last (Gl.frames (gl w)) =
  Some (Some [VNum 10; VNum 580], Some [VNum 800; VNum 600],
        Some [VNum 0.016]).
Proof. vm_compute. reflexivity. Qed.

(** * Further properties *)

(** * Further properties of the class *)

(** ** The canvas follows the window *)

Section Resizing.

Context (h : Host) (id : string) (options : value) (cfg : Config).
Context (iw ih t : float).
Hypothesis found : element h id = true.
Hypothesis supported : webgl h = true.
Hypothesis resolved : configured options = Some cfg.





End Resizing.


(** ** Set-up happens once *)

Lemma later_refl g : later g g.
Proof.
  repeat split. exists []. by rewrite app_nil_r.
Qed.

Lemma later_trans g1 g2 g3 : later g1 g2 → later g2 g3 → later g1 g3.
Proof.
  intros (Ha & Hl & Hc & cs & Ht & Hcs) (Ha' & Hl' & Hc' & cs' & Ht' & Hcs').
  split; [congruence|]. split; [congruence|]. split; [congruence|].
  exists (cs ++ cs'). split; [by rewrite Ht', Ht, <- app_assoc|].
  by apply Forall_app.
Qed.

Lemma later_issue c g : per_frame c = true → later g (Gl.issue c g).
Proof.
  intros Hc. repeat split. exists [c]. split; [done|]. by constructor.
Qed.

Lemma later_write loc vs g : later g (Gl.write loc vs g).
Proof.
  destruct loc; [|apply later_refl].
  repeat split. exists []. by rewrite app_nil_r.
Qed.

Lemma later_uniform1f loc v g : later g (Gl.uniform1f loc v g).
Proof.
  eapply later_trans; [|apply later_write]. by apply later_issue.
Qed.

Lemma later_uniform2f loc a b g : later g (Gl.uniform2f loc a b g).
Proof.
  eapply later_trans; [|apply later_write]. by apply later_issue.
Qed.

Lemma later_uniform3fv loc xs g : later g (Gl.uniform3fv loc xs g).
Proof.
  unfold Gl.uniform3fv. case_bool_decide.
  - eapply later_trans; [|apply later_write]. by apply later_issue.
  - by apply later_issue.
Qed.

Lemma later_draw a b g : later g (Gl.draw a b g).
Proof.
  repeat split. exists [Gl.DrawArrays a b]. split; [done|]. by constructor.
Qed.

Section Advances.

Lemma advances_ret {A} (a : A) : advances (ret a).
Proof. intros w. apply later_refl. Qed.

Lemma advances_throw {A} e : advances (@throw A e).
Proof. intros w. apply later_refl. Qed.

Lemma advances_read {A} (f : World → A) : advances (read f).
Proof. intros w. apply later_refl. Qed.

Lemma advances_update f :
  (∀ w, later (gl w) (gl (f w))) → advances (update f).
Proof. intros Hf w. apply Hf. Qed.

Lemma advances_gl_do f : (∀ g, later g (f g)) → advances (gl_do f).
Proof. intros Hf w. apply Hf. Qed.

Lemma advances_bind {A B} (m : M A) (k : A → M B) :
  advances m → (∀ a, advances (k a)) → advances (bind m k).
Proof.
  intros Hm Hk w. unfold bind. specialize (Hm w).
  destruct (m w) as [[a|e] w']; simpl in *; [|done].
  eapply later_trans; [done|apply Hk].
Qed.

Lemma advances_run_task (m : M unit) w :
  advances m → later (gl w) (gl (run_task m w)).
Proof.
  intros Hm. unfold run_task. specialize (Hm w).
  by destruct (m w) as [[a|e] w'].
Qed.

End Advances.

Ltac advance :=
  repeat first
    [ apply advances_ret | apply advances_throw | apply advances_read
    | apply advances_gl_do; intros ?;
      first [ apply later_uniform1f | apply later_uniform2f
            | apply later_uniform3fv | apply later_draw
            | by apply later_issue ]
    | apply advances_update; intros []; apply later_refl
    | apply advances_bind; [|intros ?]
    | match goal with
      | |- advances (if ?b then _ else _) => destruct b
      | |- advances (match ?o with _ => _ end) => destruct o
      | |- advances ?m => let c := head_of m in progress unfold c
      end ].

Lemma resize_advances : advances resize.
Proof. advance. Qed.

Lemma on_mouse_advances x y : advances (on_mouse x y).
Proof. advance. Qed.

Lemma loop_advances l : advances (loop l).
Proof. advance. Qed.

Lemma dispatch_later e w : later (gl w) (gl (dispatch e w)).
Proof.
  destruct e as [iw ih|x y|t]; simpl.
  - destruct (on_resize w); [|apply later_refl].
    apply (advances_run_task resize (with_window iw ih w)), resize_advances.
  - destruct (on_mousemove w); [|apply later_refl].
    apply advances_run_task, on_mouse_advances.
  - destruct (frame_request w) as [l|]; [|apply later_refl].
    apply (advances_run_task (loop l)
             (with_frame_request None (with_now t w))), loop_advances.
Qed.

Lemma run_later es w : later (gl w) (gl (run es w)).
Proof.
  revert w. induction es as [|e es IH]; intros w; [apply later_refl|].
  rewrite run_cons. eapply later_trans; [apply dispatch_later|apply IH].
Qed.

(** X2.  Whatever the state of the page and whatever notifications arrive,
    the program object is left as the constructor made it (attached
    shaders, link status, installed or not), and the only commands issued
    are viewport settings, uniform uploads and draw calls: no notification
    compiles, links, or uploads geometry again. *)
Theorem setup_happens_once es w :
  let g := gl w in
  let g' := gl (run es w) in
  Gl.attached g' = Gl.attached g ∧ Gl.linked g' = Gl.linked g ∧
  Gl.current g' = Gl.current g ∧
  ∃ cs, Gl.trace g' = Gl.trace g ++ cs ∧
        Forall (λ c, per_frame c = true) cs.
Proof. apply run_later. Qed.

(** X3.  A pointer-move notification never touches the context, the canvas
    or the pending frame: the new position shows at the next refresh. *)
Theorem pointer_move_never_draws x y w :
  let w' := dispatch (MouseMoved x y) w in
  gl w' = gl w ∧ frame_request w' = frame_request w ∧
  (width w', height w') = (width w, height w) ∧ console w' = console w.
Proof.
  simpl. destruct (on_mousemove w); [|done].
  rewrite (preserves_run_task gl), (preserves_run_task frame_request),
    (preserves_run_task width), (preserves_run_task height),
    (preserves_run_task console); first [done|preserve].
Qed.

(** ** The configuration *)

(** X4.  Once the fields are assigned nothing assigns the configuration or
    the start time again: after any notifications the instance holds the
    configuration resolved by the constructor and the clock value read
    then. *)
Theorem configuration_never_changes h id options cfg iw ih t es :
  element h id = true → webgl h = true →
  configured options = Some cfg →
  ∃ i, this (run es (construct h id options (load iw ih t))) = Some i ∧
       config i = cfg ∧ startTime i = t.
Proof.
  intros Hfound Hgl Hcfg.
  destruct (run_this es (construct h id options (load iw ih t))
              (initial cfg t)) as (i & Hi & Hc & Ht); [|by eauto].
  by apply construct_this.
Qed.

Lemma configuration_never_changes_witness :
  ∃ i, this (run [MouseMoved 10 20; Resized 1024 768; Refresh 16]
               (construct browser "fractal-canvas" palette
                  (load 800 600 42))) = Some i ∧
       config i =
       {| colors := {| start := VArr [VNum 0.1; VNum 0.2; VNum 0.3];
                       end_ := VArr [VNum 0.4; VNum 0.5; VNum 0.6] |};
          interaction := {| enabled := true; strength := VNum 1.5 |};
          animation := {| speed := VNum 1.0 |} |} ∧
       startTime i = 42%float.
Proof.
  apply (configuration_never_changes browser "fractal-canvas" palette);
    reflexivity.
Defined.

(** X5.  The options are optional but not nullable: [undefined] stands for
    no options, while [null] makes the constructor throw a TypeError after
    its two guards, before any field is assigned, any listener registered
    or any WebGL command issued; nothing ever happens on the page
    afterwards. *)
Theorem null_options_throw h id iw ih t es :
  element h id = true → webgl h = true →
  let w := run es (construct h id VNull (load iw ih t)) in
  configured VUndefined = Some default_config ∧
  uncaught w = ["TypeError"] ∧ console w = [] ∧
  this w = None ∧ idle w ∧ Gl.trace (gl w) = [].
Proof.
  intros Hfound Hgl w. split; [done|].
  assert (construct h id VNull (load iw ih t)
          = with_uncaught ["TypeError"] (load iw ih t)) as Hw0.
  { unfold construct, constructor. by rewrite Hfound, Hgl. }
  destruct (run_idle es (with_uncaught ["TypeError"] (load iw ih t)))
    as [Hidle Hq]; [done|].
  unfold w. rewrite Hw0. injection Hq as -> -> ->.
  by rewrite run_this_unheard.
Qed.

Lemma null_options_throw_witness :
  let w := run [Refresh 16; MouseMoved 10 20; Resized 1024 768]
             (construct browser "fractal-canvas" VNull (load 800 600 0)) in
  configured VUndefined = Some default_config ∧
  uncaught w = ["TypeError"] ∧ console w = [] ∧
  this w = None ∧ idle w ∧ Gl.trace (gl w) = [].
Proof.
  apply (null_options_throw browser "fractal-canvas"); reflexivity.
Defined.

(** ** The frame loop, once it runs *)

Lemma trace_uniform1f loc v g :
  Gl.trace (Gl.uniform1f loc v g) = Gl.trace g ++ [Gl.Uniform1f loc v].
Proof. by destruct loc. Qed.

Lemma trace_uniform2f loc a b g :
  Gl.trace (Gl.uniform2f loc a b g) = Gl.trace g ++ [Gl.Uniform2f loc a b].
Proof. by destruct loc. Qed.

Lemma trace_uniform3fv loc xs g :
  Gl.trace (Gl.uniform3fv loc xs g)
  = Gl.trace g ++ [Gl.Uniform3fv loc (VArr xs)].
Proof. unfold Gl.uniform3fv. case_bool_decide; by destruct loc. Qed.

Lemma trace_rendered l w i cs ce :
  start (colors (config i)) = VArr cs →
  end_ (colors (config i)) = VArr ce →
  Gl.trace (rendered l w i cs ce) = Gl.trace (gl w) ++ pass l w i.
Proof.
  intros Hs He. unfold pass. rewrite Hs, He.
  unfold rendered, uploaded. cbn [Gl.draw Gl.issue Gl.trace].
  rewrite !trace_uniform1f, !trace_uniform3fv, trace_uniform1f,
    !trace_uniform2f.
  by rewrite <- !app_assoc.
Qed.

Lemma refreshes_cons e es :
  refreshes (e :: es) = (if is_refresh e then 1 else 0) + refreshes es.
Proof. unfold refreshes. by destruct e. Qed.

Section Cruising.

Context (cfg : Config) (cs ce : list value).
Hypothesis start_is : start (colors cfg) = VArr cs.
Hypothesis end_is : end_ (colors cfg) = VArr ce.

(** A notification leaves the loop pending and throws nothing; only a
    refresh draws, once. *)
Lemma dispatch_cruising l e w :
  cruising cfg l w →
  cruising cfg l (dispatch e w) ∧
  console (dispatch e w) = console w ∧
  Gl.draw_calls (gl (dispatch e w))
  = Gl.draw_calls (gl w) + (if is_refresh e then 1 else 0).
Proof.
  intros ((i & Hi & Hcfg) & Hl & Hu).
  destruct e as [iw ih|x y|t]; simpl.
  - destruct (on_resize w); unfold run_task; rewrite ?resize_run;
      fields_of_world; (split; [by split; eauto|]); (split; [done|]);
      [count_draws|lia].
  - destruct (on_mousemove w); [|by split; [split; eauto|split; [|lia]]].
    unfold run_task. rewrite (on_mouse_run _ _ _ _ Hi). fields_of_world.
    split; [by split; eauto|]. split; [done|lia].
  - rewrite Hl. unfold run_task.
    erewrite loop_run; [|apply Hi|by rewrite Hcfg..]. fields_of_world.
    split; [by split; eauto|]. split; [done|].
    rewrite draw_calls_rendered. fields_of_world. lia.
Qed.

Lemma run_cruising l es w :
  cruising cfg l w →
  cruising cfg l (run es w) ∧
  console (run es w) = console w ∧
  Gl.draw_calls (gl (run es w)) = Gl.draw_calls (gl w) + refreshes es.
Proof.
  revert w. induction es as [|e es IH]; intros w Hw.
  { split; [done|]. split; [done|]. unfold refreshes. simpl. lia. }
  rewrite run_cons, refreshes_cons.
  destruct (dispatch_cruising l e w Hw) as (Hw' & Hc & Hd).
  destruct (IH _ Hw') as (? & Hc' & Hd').
  split; [done|]. split; [congruence|lia].
Qed.

Context (h : Host) (id : string) (options : value) (iw ih t : float).
Hypothesis found : element h id = true.
Hypothesis supported : webgl h = true.
Hypothesis resolved : configured options = Some cfg.
Hypothesis reaches_the_loop :
  attach_null_throws h = false ∨
  (compile_status h Gl.VERTEX_SHADER = true ∧
   compile_status h Gl.FRAGMENT_SHADER = true).

Lemma construct_draw_calls :
  Gl.draw_calls (gl (construct h id options (load iw ih t))) = 1.
Proof.
  erewrite construct_started by done. cbv zeta.
  cbn [gl with_frame_request with_gl].
  by rewrite draw_calls_rendered, draw_calls_prepared.
Qed.

Lemma construct_console :
  console (construct h id options (load iw ih t))
  = logged h Gl.VERTEX_SHADER ++ logged h Gl.FRAGMENT_SHADER.
Proof. by erewrite construct_started. Qed.

Lemma construct_uncaught :
  uncaught (construct h id options (load iw ih t)) = [].
Proof. by erewrite construct_started. Qed.

Lemma construct_frame_request :
  frame_request (construct h id options (load iw ih t))
  = Some (located (gl (prepared h cfg iw ih t))).
Proof. by erewrite construct_started. Qed.

Lemma construct_cruising :
  cruising cfg (located (gl (prepared h cfg iw ih t)))
    (construct h id options (load iw ih t)).
Proof.
  split; [|split].
  - exists (initial cfg t). split; [|done].
    by apply (construct_this h id options cfg).
  - apply construct_frame_request.
  - apply construct_uncaught.
Qed.

(** X6.  When construction reaches the loop (both stages compiled, or the
    host accepts a null shader) with colours that are arrays, the loop never
    stops and never throws: after any notifications the pass is still
    pending, nothing was logged beyond the compile logs, and the number of
    draw calls is one (the constructor's) plus one per refresh.  A refresh
    issues exactly the seven uploads, in the order of the source, followed
    by [drawArrays(TRIANGLES, 0, 6)], with the canvas size, pointer and
    clock of that moment. *)
Theorem each_refresh_draws_once es t' :
  let w := run es (construct h id options (load iw ih t)) in
  let w' := dispatch (Refresh t') w in
  Gl.draw_calls (gl w) = 1 + refreshes es ∧
  uncaught w = [] ∧
  console w = logged h Gl.VERTEX_SHADER ++ logged h Gl.FRAGMENT_SHADER ∧
  ∃ i l, this w = Some i ∧ config i = cfg ∧ startTime i = t ∧
         frame_request w = Some l ∧ frame_request w' = Some l ∧
         Gl.trace (gl w') = Gl.trace (gl w) ++ pass l (with_now t' w) i.
Proof.
  intros w w'.
  destruct (run_cruising _ es _ construct_cruising)
    as (((i & Hi & Hcfg) & Hl & Hu) & Hc & Hd).
  rewrite construct_console in Hc. rewrite construct_draw_calls in Hd.
  fold w in Hi, Hl, Hu, Hc, Hd.
  split; [done|]. split; [done|]. split; [done|].
  destruct (run_this es (construct h id options (load iw ih t))
              (initial cfg t)) as (i' & Hi' & _ & Ht).
  { by apply construct_this. }
  fold w in Hi'. assert (i' = i) as -> by congruence.
  exists i, (located (gl (prepared h cfg iw ih t))).
  split; [done|]. split; [done|]. split; [done|]. split; [done|].
  unfold w'. erewrite refresh_run; [|done..|by rewrite Hcfg|by rewrite Hcfg].
  cbn [gl frame_request with_frame_request with_gl]. split; [done|].
  by rewrite (trace_rendered _ _ _ cs ce) by by rewrite Hcfg.
Qed.

End Cruising.

Lemma each_refresh_draws_once_witness :
  let w := run [Refresh 16; MouseMoved 10 20]
             (construct browser "fractal-canvas" VUndefined (load 800 600 0))
  in
  let w' := dispatch (Refresh 33) w in
  Gl.draw_calls (gl w) = 1 + refreshes [Refresh 16; MouseMoved 10 20] ∧
  uncaught w = [] ∧
  console w = logged browser Gl.VERTEX_SHADER
              ++ logged browser Gl.FRAGMENT_SHADER ∧
  ∃ i l, this w = Some i ∧ config i = default_config ∧
         startTime i = 0%float ∧
         frame_request w = Some l ∧ frame_request w' = Some l ∧
         Gl.trace (gl w') = Gl.trace (gl w) ++ pass l (with_now 33 w) i.
Proof.
  apply (each_refresh_draws_once default_config
           [VNum 0.05; VNum 0.08; VNum 0.12] [VNum 0.2; VNum 0.5; VNum 0.55]
           eq_refl eq_refl browser "fractal-canvas" VUndefined 800 600 0
           eq_refl eq_refl eq_refl (or_intror (conj eq_refl eq_refl))).
Defined.

Example refresh_commands :
  let w := run [MouseMoved 10 20]
             (construct browser "fractal-canvas" VUndefined (load 800 600 0))
  in
  drop (length (Gl.trace (gl w))) (Gl.trace (gl (dispatch (Refresh 16) w))) =
  [ Gl.Uniform2f (Some "u_resolution") (VNum 800) (VNum 600);
    Gl.Uniform2f (Some "u_mouse") (VNum 10) (VNum 580);
    Gl.Uniform1f (Some "u_time") (VNum 0.016);
    Gl.Uniform3fv (Some "u_colorStart") default_start;
    Gl.Uniform3fv (Some "u_colorEnd") default_end;
    Gl.Uniform1f (Some "u_speed") (VNum 1);
    Gl.Uniform1f (Some "u_strength") (VNum 1.5);
    Gl.DrawArrays 0 6 ].
Proof. vm_compute. reflexivity. Qed.

(** ** When the program did not link *)



Section Unlinked.

Context (cfg : Config) (cs ce : list value).
Hypothesis start_is : start (colors cfg) = VArr cs.
Hypothesis end_is : end_ (colors cfg) = VArr ce.



Context (h : Host) (id : string) (options : value) (iw ih t : float).
Hypothesis found : element h id = true.
Hypothesis supported : webgl h = true.
Hypothesis resolved : configured options = Some cfg.
Hypothesis reaches_the_loop :
  attach_null_throws h = false ∨
  (compile_status h Gl.VERTEX_SHADER = true ∧
   compile_status h Gl.FRAGMENT_SHADER = true).
Hypothesis unlinked :
  compile_status h Gl.VERTEX_SHADER && compile_status h Gl.FRAGMENT_SHADER
  && link_status h = false.



End Unlinked.


(** ** A colour that is not an array *)

(** A colour that is not an array stops the pass before its draw call. *)
Lemma loop_throws l w i :
  this w = Some i →
  is_array (start (colors (config i))) && is_array (end_ (colors (config i)))
  = false →
  ∃ g, loop l w = (Thrown "TypeError", with_gl g w) ∧
       Gl.draw_calls g = Gl.draw_calls (gl w).
Proof.
  intros Hi Hs. destruct w; simpl in *; subst.
  unfold loop, uniform3fv, requestAnimationFrame, fields, gl_do, bind,
    update, read, ret, throw. simpl.
  destruct (start (colors (config i))); simpl in *;
    try (eexists; split; [reflexivity|count_draws]).
  destruct (end_ (colors (config i))); simpl in *; try done;
    (eexists; split; [reflexivity|count_draws]).
Qed.

(** X8.  The colours are handed to [uniform3fv] unchecked: a truthy colour
    that is not an array (a number, a string, a plain object) makes the
    first pass of the loop throw a TypeError out of the constructor, after
    the set-up and before any draw call; no frame is requested, and no draw
    call is ever issued afterwards. *)
Theorem colour_that_is_no_array_stops_the_loop
  h id options cfg iw ih t es :
  element h id = true → webgl h = true →
  configured options = Some cfg →
  attach_null_throws h = false ∨
  (compile_status h Gl.VERTEX_SHADER = true ∧
   compile_status h Gl.FRAGMENT_SHADER = true) →
  is_array (start (colors cfg)) && is_array (end_ (colors cfg)) = false →
  let w0 := construct h id options (load iw ih t) in
  let w := run es w0 in
  uncaught w0 = ["TypeError"] ∧
  Gl.draw_calls (gl w) = 0 ∧ frame_request w = None.
Proof.
  intros Hfound Hgl Hcfg Hok Hbad w0 w.
  destruct (loop_throws (located (gl (prepared h cfg iw ih t)))
              (prepared h cfg iw ih t) (initial cfg t)) as (g & Hrun & Hd);
    [done..|].
  assert (w0 = with_uncaught ["TypeError"]
                 (with_gl g (prepared h cfg iw ih t))) as Hw0.
  { unfold w0. erewrite construct_prepared by done.
    unfold run_task. by rewrite startAnimation_run, Hrun. }
  rewrite draw_calls_prepared in Hd.
  destruct (run_stalled es w0) as [Hf Hd']; [by rewrite Hw0|].
  fold w in Hf, Hd'. split; [by rewrite Hw0|]. split; [|done].
  by rewrite Hd', Hw0.
Qed.

Lemma colour_that_is_no_array_stops_the_loop_witness :
  let w0 := construct browser "fractal-canvas"
              (nested "colors" "start" (VStr "#0d141f")) (load 800 600 0) in
  let w := run [Refresh 16; Resized 1024 768; Refresh 33] w0 in
  uncaught w0 = ["TypeError"] ∧
  Gl.draw_calls (gl w) = 0 ∧ frame_request w = None.
Proof.
  eapply (colour_that_is_no_array_stops_the_loop browser "fractal-canvas"
            (nested "colors" "start" (VStr "#0d141f")));
    [reflexivity..|right; split; reflexivity|reflexivity].
Defined.

(** ** What every frame is fed *)

Section Framed.

Context (P : Gl.uniforms → Prop) (cfg : Config) (cs ce : list value).
Hypothesis start_is : start (colors cfg) = VArr cs.
Hypothesis end_is : end_ (colors cfg) = VArr ce.
Hypothesis uploaded_P :
  ∀ w i, config i = cfg → P (Gl.store (uploaded valid w i cs ce)).

Lemma dispatch_framed e w : framed P cfg w → framed P cfg (dispatch e w).
Proof.
  intros ((i & Hi & Hcfg) & Hframes & Hloc).
  destruct e as [iw ih|x y|t]; simpl.
  - destruct (on_resize w); unfold run_task; rewrite ?resize_run;
      (split; [by eauto|by split]).
  - destruct (on_mousemove w); [|split; [by eauto|by split]].
    unfold run_task. rewrite (on_mouse_run _ _ _ _ Hi).
    split; [by eauto|by split].
  - destruct (frame_request w) as [l|] eqn:Hl.
    2: { split; [by eauto|]. split; [done|]. fields_of_world.
         intros l. by rewrite Hl. }
    unfold run_task. erewrite loop_run; [|apply Hi|by rewrite Hcfg..].
    split; [by eauto|]. fields_of_world.
    rewrite frames_rendered, current_rendered. fields_of_world.
    split; [|by intros ? [= <-]; auto].
    apply Forall_app. split; [done|].
    destruct (Gl.current (gl w)) eqn:Hcur; [|done].
    rewrite (Hloc l) by done. apply Forall_singleton.
    by apply uploaded_P.
Qed.

Lemma run_framed es w : framed P cfg w → framed P cfg (run es w).
Proof.
  revert w. induction es as [|e es IH]; intros w Hw; [done|].
  rewrite run_cons. by apply IH, dispatch_framed.
Qed.

Context (h : Host) (id : string) (options : value) (iw ih t : float).
Hypothesis found : element h id = true.
Hypothesis supported : webgl h = true.
Hypothesis resolved : configured options = Some cfg.

Lemma started_framed :
  attach_null_throws h = false ∨
  (compile_status h Gl.VERTEX_SHADER = true ∧
   compile_status h Gl.FRAGMENT_SHADER = true) →
  framed P cfg (construct h id options (load iw ih t)).
Proof.
  intros Hok. erewrite construct_started by done. cbv zeta.
  split; [by eexists|]. fields_of_world.
  rewrite frames_rendered, current_rendered, frames_prepared,
    current_prepared.
  split.
  - destruct (Gl.linked (gl (prepared h cfg iw ih t))) eqn:Hlinked; [|done].
    rewrite located_valid by done. apply Forall_singleton.
    by apply uploaded_P.
  - intros l [= <-] Hlinked. by apply located_valid.
Qed.

Lemma stopped_framed type :
  attach_null_throws h = true → compile_status h type = false →
  framed P cfg (construct h id options (load iw ih t)).
Proof.
  intros Hthrows Hfail.
  edestruct (construct_stopped h id options cfg iw ih t)
    as (g & -> & _ & Hg); [done..|].
  split; [by eexists|]. fields_of_world. rewrite Hg. by split.
Qed.

Lemma construct_framed :
  framed P cfg (construct h id options (load iw ih t)).
Proof.
  destruct (attach_null_throws h) eqn:Hthrows;
    [|by apply started_framed; left].
  destruct (compile_status h Gl.VERTEX_SHADER) eqn:HV;
    [|by eapply stopped_framed].
  destruct (compile_status h Gl.FRAGMENT_SHADER) eqn:HF;
    [|by eapply stopped_framed].
  apply started_framed. by right.
Qed.

End Framed.

(** X9.  Whatever the host, every frame that is rendered was fed the speed
    and the strength of the configuration, unmodified, and the name of each
    of the seven uniforms of the program holds a value of its arity (2, 2,
    1, 3, 3, 1, 1) when the two colours have three components. *)
Theorem every_frame_is_fed h id options cfg cs ce iw ih t es :
  element h id = true → webgl h = true →
  configured options = Some cfg →
  start (colors cfg) = VArr cs → end_ (colors cfg) = VArr ce →
  let w := run es (construct h id options (load iw ih t)) in
  Forall (λ f, f !! "u_speed" = Some [speed (animation cfg)] ∧
               f !! "u_strength" = Some [strength (interaction cfg)] ∧
               (length cs = 3 → length ce = 3 → complete f))
         (Gl.frames (gl w)).
Proof.
  intros Hfound Hgl Hcfg Hs He w.
  set (P := λ f : Gl.uniforms,
         f !! "u_speed" = Some [speed (animation cfg)] ∧
         f !! "u_strength" = Some [strength (interaction cfg)] ∧
         (length cs = 3 → length ce = 3 → complete f)).
  assert (∀ w' i, config i = cfg → P (Gl.store (uploaded valid w' i cs ce)))
    as HP; [|by eapply run_framed, construct_framed].
  intros w' i Hi. unfold P.
  destruct (store_uploaded w' i cs ce)
    as (s & Hstore & Hr & Hm & Ht & Hcs & Hce).
  rewrite Hstore, Hi.
  split; [by rewrite lookup_insert_ne, lookup_insert_eq|].
  split; [by rewrite lookup_insert_eq|].
  intros Hlcs Hlce. unfold complete.
  rewrite !lookup_insert_eq.
  rewrite (lookup_insert_ne _ "u_strength" "u_speed"), lookup_insert_eq
    by done.
  rewrite !lookup_insert_ne by done.
  rewrite Hr, Hm, Ht, (Hcs Hlcs), (Hce Hlce). simpl.
  by rewrite Hlcs, Hlce.
Qed.

Lemma every_frame_is_fed_witness :
  let w := run [Refresh 16; MouseMoved 10 20; Refresh 33]
             (construct browser "fractal-canvas"
                (nested "animation" "speed" (VNum (-2))) (load 800 600 0)) in
  let cfg :=
    {| colors := {| start := default_start; end_ := default_end |};
       interaction := {| enabled := true; strength := VNum 1.5 |};
       animation := {| speed := VNum (-2) |} |} in
  let cs := [VNum 0.05; VNum 0.08; VNum 0.12] in
  let ce := [VNum 0.2; VNum 0.5; VNum 0.55] in
  Forall (λ f, f !! "u_speed" = Some [speed (animation cfg)] ∧
               f !! "u_strength" = Some [strength (interaction cfg)] ∧
               (length cs = 3 → length ce = 3 → complete f))
         (Gl.frames (gl w)).
Proof.
  apply (every_frame_is_fed browser "fractal-canvas"
           (nested "animation" "speed" (VNum (-2)))); reflexivity.
Defined.

Example negative_speed_is_uploaded :
  let w := run [Refresh 16]
             (construct browser "fractal-canvas"
                (nested "animation" "speed" (VNum (-2))) (load 800 600 0)) in
  (λ f, f !! "u_speed") <$> Gl.frames (gl w)
  = [Some [VNum (-2)]; Some [VNum (-2)]].
Proof. vm_compute. reflexivity. Qed.

(** ** The stand-alone script *)

Section ScriptRuns.

Context (h : Host) (log : string).

Lemma script_run_cons e es s :
  Script.run h (e :: es) s = Script.run h es (Script.dispatch h e s).
Proof. done. Qed.

Lemma script_resize_run s :
  webgl h = true →
  Script.resizeCanvas h s =
  (Returned (),
   Script.with_page
     (with_gl (Gl.issue (Gl.Viewport 0 0 (innerWidth (Script.page s))
                           (innerHeight (Script.page s)))
                 (gl (Script.page s)))
        (with_canvas (innerWidth (Script.page s))
           (innerHeight (Script.page s)) (Script.page s))) s).
Proof.
  intros Hgl. destruct s as [[] ? ? ? ? ?].
  unfold Script.resizeCanvas, Script.gl_call, Script.gl_method.
  by rewrite Hgl.
Qed.

Lemma script_resize_throws s :
  webgl h = false →
  Script.resizeCanvas h s =
  (Thrown "TypeError",
   Script.with_page
     (with_canvas (innerWidth (Script.page s))
        (innerHeight (Script.page s)) (Script.page s)) s).
Proof.
  intros Hgl. destruct s as [[] ? ? ? ? ?].
  unfold Script.resizeCanvas, Script.gl_call, Script.gl_method.
  by rewrite Hgl.
Qed.

Lemma script_on_mouse_run x y s p :
  Script.pointer s = Some p →
  Script.on_mouse x y s =
  (Returned (),
   Script.with_pointer (Some (x, height (Script.page s) - y)%float) s).
Proof. intros Hp. destruct s as [[] ? ? ? ? ?]; simpl in *; by subst. Qed.

Lemma script_render_run t s l p :
  webgl h = true →
  Script.locations s = Some l → Script.pointer s = Some p →
  Script.render h t s =
  (Returned (),
   Script.with_render_request true
     (Script.with_page
        (with_gl (script_rendered l (Script.page s) p t) (Script.page s))
        s)).
Proof.
  intros Hgl Hl Hp. destruct s as [[] ? ? ? ? ?]; simpl in *; subst.
  unfold Script.render, Script.gl_call, Script.gl_method.
  by rewrite Hgl.
Qed.

End ScriptRuns.

Section ScriptStart.

Context (h : Host) (log : string) (iw ih : float).
Hypothesis found : element h "fractal-canvas" = true.

Lemma script_createShader_run type s :
  webgl h = true →
  Script.createShader h type s =
  (Returned (compilation h type),
   Script.with_deleted
     (Script.deleted s ++ (if compile_status h type then [] else [type]))
     (Script.with_page
        (with_console (console (Script.page s) ++ logged h type)
           (with_gl (compiled type (gl (Script.page s))) (Script.page s)))
        s)).
Proof.
  intros Hgl. destruct s as [[] ? ? ? ? ?].
  unfold Script.createShader, Script.gl_call, Script.gl_method, compilation,
    logged.
  rewrite Hgl. destruct (compile_status h type); simpl;
    unfold Script.bind, Script.lift, Script.gl_method; simpl;
    rewrite ?Hgl; simpl; by rewrite ?app_nil_r.
Qed.

(** The script runs to its end when no [attachShader] throws. *)
Lemma script_start_run :
  webgl h = true →
  attach_null_throws h = false ∨
  (compile_status h Gl.VERTEX_SHADER = true ∧
   compile_status h Gl.FRAGMENT_SHADER = true) →
  Script.start h log iw ih = script_started h log iw ih.
Proof.
  intros Hgl Hok.
  unfold Script.start, Script.script, Script.resizeCanvas,
    Script.createShader, Script.gl_call, Script.gl_method, attachShader,
    script_started, script_context, script_log, failed, compilation, logged.
  rewrite found, Hgl.
  destruct (compile_status h Gl.VERTEX_SHADER) eqn:HV,
    (compile_status h Gl.FRAGMENT_SHADER) eqn:HF,
    (link_status h) eqn:HL;
    (destruct Hok as [Ha|[? ?]]; [rewrite ?Ha|try congruence]);
    rewrite ?filter_cons, ?filter_nil, ?HV, ?HF;
    vm_compute; reflexivity.
Qed.

End ScriptStart.

Section ScriptStops.

Context (h : Host) (log : string) (iw ih : float).
Hypothesis found : element h "fractal-canvas" = true.

(** Without WebGL the script stops in its first call of [resizeCanvas]. *)
Lemma script_start_unsupported :
  webgl h = false →
  Script.start h log iw ih =
  {| Script.page :=
       {| innerWidth := iw; innerHeight := ih; now := 0; console := [];
          uncaught := ["TypeError"]; width := iw; height := ih;
          gl := Gl.fresh; on_resize := true; on_mousemove := false;
          frame_request := None; this := None |};
     Script.alerts := ["WebGL not supported"]; Script.deleted := [];
     Script.locations := None; Script.pointer := None;
     Script.render_request := false |}.
Proof.
  intros Hgl.
  unfold Script.start, Script.script, Script.resizeCanvas, Script.gl_call,
    Script.gl_method.
  rewrite found, Hgl. vm_compute. reflexivity.
Qed.

(** With a stage that does not compile, under a binding that throws on a
    null shader, it stops at the [attachShader] of that stage. *)
Lemma script_start_stopped type :
  webgl h = true →
  attach_null_throws h = true → compile_status h type = false →
  let s := Script.start h log iw ih in
  script_halted s ∧
  uncaught (Script.page s) = ["TypeError"] ∧
  console (Script.page s)
  = logged h Gl.VERTEX_SHADER ++ logged h Gl.FRAGMENT_SHADER ∧
  Script.deleted s = failed h ∧
  Gl.draw_calls (gl (Script.page s)) = 0.
Proof.
  intros Hgl Hthrows Hfail.
  unfold Script.start, Script.script, Script.resizeCanvas,
    Script.createShader, Script.gl_call, Script.gl_method, attachShader,
    script_halted, failed, logged.
  rewrite found, Hgl, Hthrows.
  destruct type;
    [destruct (compile_status h Gl.FRAGMENT_SHADER) eqn:HF
    |destruct (compile_status h Gl.VERTEX_SHADER) eqn:HV];
    rewrite ?filter_cons, ?filter_nil, ?Hfail, ?HF, ?HV;
    vm_compute; by split_and!.
Qed.

End ScriptStops.

Section ScriptLife.

Context (h : Host).

Lemma frames_in_cons e es :
  frames_in (e :: es) = (if is_frame e then 1 else 0) + frames_in es.
Proof. unfold frames_in. rewrite filter_cons. by destruct e. Qed.

Lemma resizes_in_cons e es :
  resizes_in (e :: es) = (if is_resize e then 1 else 0) + resizes_in es.
Proof. unfold resizes_in. rewrite filter_cons. by destruct e. Qed.

Lemma draw_calls_script_rendered l w p t :
  Gl.draw_calls (script_rendered l w p t) = S (Gl.draw_calls (gl w)).
Proof. unfold script_rendered. count_draws. Qed.


Lemma current_script_rendered l w p t :
  Gl.current (script_rendered l w p t) = Gl.current (gl w).
Proof.
  unfold script_rendered, Gl.uniform1f, Gl.uniform2f, Gl.write.
  by destruct (Script.resolutionUniformLocation l),
    (Script.mouseUniformLocation l), (Script.timeUniformLocation l).
Qed.

Lemma frames_script_rendered l w p t :
  length (Gl.frames (script_rendered l w p t))
  = (if Gl.current (gl w) then 1 else 0) + length (Gl.frames (gl w)).
Proof.
  unfold script_rendered, Gl.uniform1f, Gl.uniform2f, Gl.write.
  destruct (Script.resolutionUniformLocation l),
    (Script.mouseUniformLocation l), (Script.timeUniformLocation l);
    cbn [Gl.draw Gl.issue Gl.frames Gl.current Gl.store];
    destruct (Gl.current (gl w)); rewrite ?length_app; simpl; lia.
Qed.

(** *** While the script is stopped *)

Lemma script_dispatch_halted e s :
  script_halted s →
  let s' := Script.dispatch h e s in
  script_halted s' ∧
  Script.alerts s' = Script.alerts s ∧
  console (Script.page s') = console (Script.page s) ∧
  Gl.draw_calls (gl (Script.page s')) = Gl.draw_calls (gl (Script.page s)) ∧
  (webgl h = false →
   gl (Script.page s') = gl (Script.page s) ∧
   uncaught (Script.page s')
   = uncaught (Script.page s) ++ (if is_resize e then ["TypeError"] else [])).
Proof.
  intros (Hr & Hm & Hf). destruct e as [iw ih|x y|t]; simpl.
  - rewrite Hr. unfold Script.run_task.
    destruct (webgl h) eqn:Hgl.
    + rewrite script_resize_run by done.
      destruct s as [[] ? ? ? ? ?]; simpl in *.
      split_and!; try done. by rewrite draw_calls_issue.
    + rewrite script_resize_throws by done.
      destruct s as [[] ? ? ? ? ?]; simpl in *. by split_and!.
  - rewrite Hm. split_and!; try done. intros _. by rewrite app_nil_r.
  - rewrite Hf. split_and!; try done. intros _. by rewrite app_nil_r.
Qed.

Lemma script_run_halted es s :
  script_halted s →
  let s' := Script.run h es s in
  script_halted s' ∧
  Script.alerts s' = Script.alerts s ∧
  console (Script.page s') = console (Script.page s) ∧
  Gl.draw_calls (gl (Script.page s')) = Gl.draw_calls (gl (Script.page s)) ∧
  (webgl h = false →
   gl (Script.page s') = gl (Script.page s) ∧
   uncaught (Script.page s')
   = uncaught (Script.page s) ++ repeat "TypeError" (resizes_in es)).
Proof.
  revert s. induction es as [|e es IH]; intros s Hs.
  { simpl. split_and!; try done. intros _. by rewrite app_nil_r. }
  cbv zeta. rewrite script_run_cons.
  destruct (script_dispatch_halted e s Hs) as (Hs' & Ha & Hc & Hd & Hno).
  destruct (IH _ Hs') as (Hs'' & Ha' & Hc' & Hd' & Hno').
  split_and!; [done|congruence..|].
  intros Hgl. destruct (Hno Hgl) as [Hg Hu], (Hno' Hgl) as [Hg' Hu'].
  split; [congruence|].
  rewrite Hu', Hu, resizes_in_cons, <- (assoc_L (++)).
  by destruct e.
Qed.

(** *** While [render] is pending *)

Hypothesis supported : webgl h = true.

Lemma script_dispatch_going e l linked s :
  script_going l linked s →
  let s' := Script.dispatch h e s in
  script_going l linked s' ∧
  console (Script.page s') = console (Script.page s) ∧
  Gl.draw_calls (gl (Script.page s'))
  = (if is_frame e then 1 else 0) + Gl.draw_calls (gl (Script.page s)) ∧
  length (Gl.frames (gl (Script.page s')))
  = (if is_frame e && linked then 1 else 0)
    + length (Gl.frames (gl (Script.page s))).
Proof.
  intros (Hr & Hm & Hf & Hl & (p & Hp) & Hu & Hc).
  destruct e as [iw ih|x y|t]; simpl.
  - rewrite Hr. unfold Script.run_task.
    rewrite script_resize_run by done.
    destruct s as [[] ? ? ? ? ?]; unfold script_going; simpl in *.
    split_and!; try done; [by eauto|by rewrite draw_calls_issue].
  - rewrite Hm. unfold Script.run_task.
    rewrite (script_on_mouse_run _ _ _ _ Hp).
    destruct s as [[] ? ? ? ? ?]; unfold script_going; simpl in *.
    split_and!; try done. by eauto.
  - rewrite Hf. unfold Script.run_task.
    erewrite script_render_run; [|done|apply Hl|apply Hp].
    destruct s as [[] ? ? ? ? ?]; cbn [Script.page Script.with_page
      Script.with_render_request Script.render_request Script.locations
      Script.pointer gl with_gl on_resize on_mousemove uncaught console]
      in *.
    unfold script_going.
    cbn [Script.page Script.with_page Script.with_render_request
      Script.render_request Script.locations Script.pointer gl with_gl
      on_resize on_mousemove uncaught console].
    rewrite draw_calls_script_rendered, frames_script_rendered,
      current_script_rendered.
    cbn [gl]. rewrite Hc.
    split_and!; try done. by eauto.
Qed.

Lemma script_run_going es l linked s :
  script_going l linked s →
  let s' := Script.run h es s in
  script_going l linked s' ∧
  console (Script.page s') = console (Script.page s) ∧
  Gl.draw_calls (gl (Script.page s'))
  = frames_in es + Gl.draw_calls (gl (Script.page s)) ∧
  length (Gl.frames (gl (Script.page s')))
  = (if linked then frames_in es else 0)
    + length (Gl.frames (gl (Script.page s))).
Proof.
  revert s. induction es as [|e es IH]; intros s Hs.
  { simpl. split_and!; try done. by destruct linked. }
  cbv zeta. rewrite script_run_cons.
  destruct (script_dispatch_going e l linked s Hs) as (Hs' & Hc & Hd & Hfr).
  destruct (IH _ Hs') as (Hs'' & Hc' & Hd' & Hfr').
  split_and!; [done|congruence|..].
  - rewrite Hd', Hd, frames_in_cons. destruct (is_frame e); simpl; lia.
  - rewrite Hfr', Hfr, frames_in_cons.
    destruct (is_frame e), linked; simpl; lia.
Qed.

End ScriptLife.

Lemma current_script_context h iw ih :
  Gl.current (script_context h iw ih)
  = compile_status h Gl.VERTEX_SHADER && compile_status h Gl.FRAGMENT_SHADER
    && link_status h.
Proof.
  unfold script_context, compilation.
  by destruct (compile_status h Gl.VERTEX_SHADER),
    (compile_status h Gl.FRAGMENT_SHADER), (link_status h).
Qed.



Lemma script_started_going h log iw ih :
  script_going (script_locations (script_context h iw ih))
    (compile_status h Gl.VERTEX_SHADER && compile_status h Gl.FRAGMENT_SHADER
     && link_status h)
    (script_started h log iw ih).
Proof.
  unfold script_going, script_started.
  cbn [Script.page Script.render_request Script.locations Script.pointer
       on_resize on_mousemove uncaught gl].
  rewrite current_script_context. split_and!; try done. by eexists.
Qed.

Lemma script_start_going h log iw ih :
  element h "fractal-canvas" = true → webgl h = true →
  attach_null_throws h = false ∨
  (compile_status h Gl.VERTEX_SHADER = true ∧
   compile_status h Gl.FRAGMENT_SHADER = true) →
  script_going (script_locations (script_context h iw ih))
    (compile_status h Gl.VERTEX_SHADER && compile_status h Gl.FRAGMENT_SHADER
     && link_status h)
    (Script.start h log iw ih).
Proof.
  intros Hfound Hgl Hok. rewrite script_start_run by done.
  apply script_started_going.
Qed.


(** X10.  The script has no guard on the context: without WebGL it shows
    one alert and goes on, its first call of [resizeCanvas] throws a
    TypeError on the null context, after sizing the canvas and registering
    the resize listener, and the rest of the script never runs.  So nothing
    is logged, no command is ever issued, [render] is never requested, the
    pointer is never followed, and every later change of size of the window
    throws once more. *)
Theorem script_without_webgl h log iw ih es :
  element h "fractal-canvas" = true → webgl h = false →
  let s0 := Script.start h log iw ih in
  let s := Script.run h es s0 in
  (width (Script.page s0), height (Script.page s0)) = (iw, ih) ∧
  Script.alerts s = ["WebGL not supported"] ∧
  console (Script.page s) = [] ∧
  uncaught (Script.page s) = repeat "TypeError" (1 + resizes_in es) ∧
  Gl.trace (gl (Script.page s)) = [] ∧
  Script.render_request s = false ∧
  on_mousemove (Script.page s) = false.
Proof.
  intros Hfound Hgl s0 s.
  pose proof (script_start_unsupported h log iw ih Hfound Hgl) as Hs0.
  fold s0 in Hs0.
  destruct (script_run_halted h es s0)
    as ((_ & Hm & Hr) & Ha & Hc & _ & Hno); [by rewrite Hs0|].
  destruct (Hno Hgl) as [Hg Hu]. fold s in Hm, Hr, Ha, Hc, Hg, Hu.
  rewrite Ha, Hc, Hg, Hu, Hs0. by split_and!.
Qed.

Lemma script_without_webgl_witness :
  let s0 := Script.start no_webgl "" 800 600 in
  let s :=
    Script.run no_webgl
      [Script.Frame 16; Script.Resized 1024 768; Script.MouseMoved 10 20;
       Script.Resized 640 480] s0 in
  (width (Script.page s0), height (Script.page s0))
  = (800%float, 600%float) ∧
  Script.alerts s = ["WebGL not supported"] ∧
  console (Script.page s) = [] ∧
  uncaught (Script.page s) = ["TypeError"; "TypeError"; "TypeError"] ∧
  Gl.trace (gl (Script.page s)) = [] ∧
  Script.render_request s = false ∧
  on_mousemove (Script.page s) = false.
Proof.
  apply (script_without_webgl no_webgl "" 800 600
           [Script.Frame 16; Script.Resized 1024 768;
            Script.MouseMoved 10 20; Script.Resized 640 480]);
    reflexivity.
Defined.

(** X11.  When no [attachShader] throws, the script runs to its end and
    reports every failure: the info log of each stage that did not compile,
    in the order of compilation, then the info log of the program when it
    did not link; each failed shader is deleted; nothing is logged
    afterwards; and the program is installed exactly when both stages
    compiled and the driver linked them. *)
Theorem script_reports_every_failure h log iw ih es :
  element h "fractal-canvas" = true → webgl h = true →
  attach_null_throws h = false ∨
  (compile_status h Gl.VERTEX_SHADER = true ∧
   compile_status h Gl.FRAGMENT_SHADER = true) →
  let s0 := Script.start h log iw ih in
  let s := Script.run h es s0 in
  let linked :=
    compile_status h Gl.VERTEX_SHADER && compile_status h Gl.FRAGMENT_SHADER
    && link_status h in
  console (Script.page s)
  = logged h Gl.VERTEX_SHADER ++ logged h Gl.FRAGMENT_SHADER
    ++ (if linked then [] else [log]) ∧
  Script.deleted s0 = failed h ∧
  uncaught (Script.page s) = [] ∧
  Script.render_request s = true ∧
  Gl.current (gl (Script.page s)) = linked.
Proof.
  intros Hfound Hgl Hok s0 s linked.
  pose proof (script_start_run h log iw ih Hfound Hgl Hok) as Hs0.
  fold s0 in Hs0.
  destruct (script_run_going h Hgl es _ _ s0
              (script_start_going h log iw ih Hfound Hgl Hok))
    as ((_ & _ & Hr & _ & _ & Hu & Hcur) & Hc & _).
  fold s in Hr, Hu, Hcur, Hc. rewrite Hc, Hs0. by split_and!.
Qed.

Lemma script_reports_every_failure_witness :
  let h := compile_fails false in
  let s0 := Script.start h "link: missing stage" 800 600 in
  let s := Script.run h [Script.Frame 16; Script.Resized 1024 768] s0 in
  let linked :=
    compile_status h Gl.VERTEX_SHADER && compile_status h Gl.FRAGMENT_SHADER
    && link_status h in
  console (Script.page s)
  = logged h Gl.VERTEX_SHADER ++ logged h Gl.FRAGMENT_SHADER
    ++ (if linked then [] else ["link: missing stage"]) ∧
  Script.deleted s0 = failed h ∧
  uncaught (Script.page s) = [] ∧
  Script.render_request s = true ∧
  Gl.current (gl (Script.page s)) = linked.
Proof.
  apply (script_reports_every_failure (compile_fails false)
           "link: missing stage" 800 600
           [Script.Frame 16; Script.Resized 1024 768]);
    [reflexivity..|by left].
Defined.

Example script_link_failure_logged :
  console (Script.page (Script.start link_fails "link: failed" 800 600))
  = ["link: failed"] ∧
  console (construct link_fails "fractal-canvas" VUndefined (load 800 600 0))
  = [].
Proof. vm_compute. by split. Qed.

(** X12.  With a stage that does not compile, under a binding that throws
    on a null shader, the script stops at [attachShader]: the info logs of
    the failed stages are logged and their shaders deleted, the TypeError
    reaches the host, the program info log is not asked for, [render] is
    never requested and no draw call is ever issued. *)
Theorem script_stops_at_null_shader h log iw ih type es :
  element h "fractal-canvas" = true → webgl h = true →
  attach_null_throws h = true → compile_status h type = false →
  let s0 := Script.start h log iw ih in
  let s := Script.run h es s0 in
  uncaught (Script.page s0) = ["TypeError"] ∧
  console (Script.page s)
  = logged h Gl.VERTEX_SHADER ++ logged h Gl.FRAGMENT_SHADER ∧
  Script.deleted s0 = failed h ∧
  Script.render_request s = false ∧
  Gl.draw_calls (gl (Script.page s)) = 0.
Proof.
  intros Hfound Hgl Hthrows Hfail s0 s.
  destruct (script_start_stopped h log iw ih Hfound type Hgl Hthrows Hfail)
    as (Hh & Hu & Hc & Hd & Hn).
  fold s0 in Hh, Hu, Hc, Hd, Hn.
  destruct (script_run_halted h es s0 Hh)
    as ((_ & _ & Hr) & _ & Hc' & Hd' & _).
  fold s in Hr, Hc', Hd'. rewrite Hc', Hd'. by split_and!.
Qed.

Lemma script_stops_at_null_shader_witness :
  let h := compile_fails true in
  let s0 := Script.start h "" 800 600 in
  let s := Script.run h [Script.Frame 16; Script.Resized 1024 768] s0 in
  uncaught (Script.page s0) = ["TypeError"] ∧
  console (Script.page s)
  = logged h Gl.VERTEX_SHADER ++ logged h Gl.FRAGMENT_SHADER ∧
  Script.deleted s0 = failed h ∧
  Script.render_request s = false ∧
  Gl.draw_calls (gl (Script.page s)) = 0.
Proof.
  apply (script_stops_at_null_shader (compile_fails true) "" 800 600
           Gl.FRAGMENT_SHADER [Script.Frame 16; Script.Resized 1024 768]);
    reflexivity.
Defined.





Example script_pointer_values :
  let s := Script.run browser [Script.Frame 16; Script.Resized 1024 768]
             (Script.start browser "" 800 600) in
  Script.pointer s = Some (400, 300)%float ∧
  Script.pointer (Script.dispatch browser (Script.MouseMoved 10 20) s)
  = Some (10, 748)%float.
Proof. vm_compute. by split. Qed.

(** ** The two fragment programs *)

(** A first iteration that escapes ends the loop. *)
Lemma iterate_first {F : Type} `{Shader.GLArith F} n (c z : Shader.vec2 F)
  iter :
  Shader.escaped (Shader.step c z) = true →
  Shader.iterate (S n) c z iter = (Shader.step c z, iter).
Proof. intros Hesc. simpl. by rewrite Hesc. Qed.

Section TwoPrograms.

Import Shader.
Context {F : Type} `{GLFloat F}.

Local Open Scope glsl_scope.

(** X15.  In an arithmetic where multiplying by 1.0 changes nothing, the
    fragment program of the script computes, for every fragment, what the
    fragment program of the class computes with the speed 1.0, the strength
    1.5 and the colours (0.05, 0.08, 0.12) and (0.2, 0.5, 0.55): the same
    plane point, the same parameter, the same loop result and the same
    colour. *)
Theorem script_program_is_class_program
  (u_resolution u_mouse : vec2 F) (u_time : F) (fragCoord : vec2 F) :
  (∀ a : F, a * lit 1 = a) →
  let u := script_inputs u_resolution u_mouse u_time in
  Standalone.plane u_resolution fragCoord = plane u fragCoord ∧
  Standalone.parameter u_resolution u_mouse u_time = parameter u ∧
  Standalone.fractal u_resolution u_mouse u_time fragCoord
  = fractal u fragCoord ∧
  Standalone.main u_resolution u_mouse u_time fragCoord = main u fragCoord.
Proof.
  intros Hone u.
  assert (Standalone.parameter u_resolution u_mouse u_time = parameter u)
    as Hc.
  { unfold Standalone.parameter, parameter. simpl. by rewrite Hone. }
  assert (Standalone.fractal u_resolution u_mouse u_time fragCoord
          = fractal u fragCoord) as Hf.
  { unfold Standalone.fractal, fractal. by rewrite Hc. }
  split; [done|]. split; [done|]. split; [done|].
  unfold Standalone.main, main. rewrite Hf.
  by destruct (fractal u fragCoord).
Qed.

End TwoPrograms.

(** ** The fragment program in exact arithmetic

    The statements of this part read the program over the real numbers
    ([Ideal.real]): they say what the formulas of the program mean, not how
    a GPU rounds them. *)

Section Exact.

Import Shader Ideal.

Local Open Scope R_scope.

Lemma script_program_is_class_program_witness :
  let u_resolution := Vec2 800 600 in
  let u_mouse := Vec2 400 300 in
  let u := script_inputs u_resolution u_mouse 2 in
  Standalone.plane u_resolution (Vec2 0.5 0.5) = plane u (Vec2 0.5 0.5) ∧
  Standalone.parameter u_resolution u_mouse 2 = parameter u ∧
  Standalone.fractal u_resolution u_mouse 2 (Vec2 0.5 0.5)
  = fractal u (Vec2 0.5 0.5) ∧
  Standalone.main u_resolution u_mouse 2 (Vec2 0.5 0.5)
  = main u (Vec2 0.5 0.5).
Proof.
  apply (script_program_is_class_program (F := R)).
  intros a. simpl. unfold Q2R. simpl. lra.
Defined.

Lemma lit_decimal (n : Z) (d : positive) : lit (n # d) = IZR n / IZR (Zpos d).
Proof. done. Qed.



(** X17.  In exact arithmetic, while the pointer is on the surface the
    parameter stays in the square around (-0.8, 0.156) of half-width
    0.1 + |strength| / 2, whatever the time and the speed. *)
Theorem parameter_stays_in_a_box (u : inputs R) :
  let c := parameter u in
  0 < x (u_resolution u) → 0 < y (u_resolution u) →
  0 <= x (u_mouse u) <= x (u_resolution u) →
  0 <= y (u_mouse u) <= y (u_resolution u) →
  Rabs (x c - (-8 / 10)) <= 1 / 10 + Rabs (u_strength u) / 2 ∧
  Rabs (y c - 156 / 1000) <= 1 / 10 + Rabs (u_strength u) / 2.
Proof.
  intros c HW HH [Hx0 Hx1] [Hy0 Hy1]. unfold c, parameter. simpl.
  rewrite !lit_decimal.
  set (t := u_time u * u_speed u).
  assert (∀ m d s : R, 0 < d → 0 <= m <= d →
            Rabs ((m / d - 5 / 10) * s) <= Rabs s / 2) as Hoff.
  { intros m d s Hd [Hm0 Hm1]. rewrite Rabs_mult.
    assert (Rabs (m / d - 5 / 10) <= 1 / 2) as Hh.
    { assert (0 <= m / d <= 1) as [? ?].
      { unfold Rdiv. split.
        - apply Rmult_le_pos; [done|]. by apply Rlt_le, Rinv_0_lt_compat.
        - apply (Rmult_le_reg_r d); [done|].
          rewrite Rmult_assoc, Rinv_l; lra. }
      apply Rabs_le. lra. }
    pose proof (Rabs_pos s).
    replace (Rabs s / 2) with (1 / 2 * Rabs s) by lra.
    by apply Rmult_le_compat_r. }
  assert (∀ v : R, -1 <= v <= 1 → Rabs (v * (1 / 10)) <= 1 / 10) as Hosc.
  { intros v Hv. apply Rabs_le. lra. }
  split.
  - replace (-8 / 10 + Rtrigo_def.sin (t * (3 / 10)) * (1 / 10)
             + (x (u_mouse u) / x (u_resolution u) - 5 / 10) * u_strength u
             - -8 / 10)
      with (Rtrigo_def.sin (t * (3 / 10)) * (1 / 10)
            + (x (u_mouse u) / x (u_resolution u) - 5 / 10) * u_strength u)
      by lra.
    eapply Rle_trans; [apply Rabs_triang|].
    apply Rplus_le_compat; [apply Hosc, SIN_bound|by apply Hoff].
  - replace (156 / 1000 + Rtrigo_def.cos (t * (2 / 10)) * (1 / 10)
             + (y (u_mouse u) / y (u_resolution u) - 5 / 10) * u_strength u
             - 156 / 1000)
      with (Rtrigo_def.cos (t * (2 / 10)) * (1 / 10)
            + (y (u_mouse u) / y (u_resolution u) - 5 / 10) * u_strength u)
      by lra.
    eapply Rle_trans; [apply Rabs_triang|].
    apply Rplus_le_compat; [apply Hosc, COS_bound|by apply Hoff].
Qed.

Lemma parameter_stays_in_a_box_witness :
  let u := script_inputs (Vec2 800 600) (Vec2 400 300) 2 in
  let c := parameter u in
  Rabs (x c - (-8 / 10)) <= 1 / 10 + Rabs (u_strength u) / 2 ∧
  Rabs (y c - 156 / 1000) <= 1 / 10 + Rabs (u_strength u) / 2.
Proof.
  apply (parameter_stays_in_a_box
           (script_inputs (Vec2 800 600) (Vec2 400 300) 2));
    simpl; lra.
Defined.

(** The escape test in exact arithmetic. *)
Lemma escaped_far (z : vec2 R) : escaped z = true → 4 < dot z z.
Proof.
  unfold escaped, Shader.length, dot. simpl.
  destruct (Rgt_dec _ _) as [Hgt|]; [intros _|done].
  rewrite lit_decimal in Hgt.
  destruct (Rlt_le_dec 4 (x z * x z + y z * y z)) as [|Hle]; [done|].
  apply sqrt_le_1_alt in Hle.
  replace 4 with (2 * 2) in Hle by lra.
  rewrite sqrt_square in Hle by lra. lra.
Qed.

Lemma far_escaped (z : vec2 R) : 4 < dot z z → escaped z = true.
Proof.
  intros Hfar. unfold escaped, Shader.length. simpl.
  destruct (Rgt_dec _ _) as [|Hn]; [done|]. exfalso. apply Hn.
  rewrite lit_decimal. apply Rlt_gt.
  replace (2 / 1) with (R_sqrt.sqrt (2 * 2)) by (rewrite sqrt_square; lra).
  apply sqrt_lt_1_alt. split; [lra|].
  replace (2 * 2) with 4 by lra. exact Hfar.
Qed.

(** X18.  In exact arithmetic, the double logarithm of the colouring is
    always defined where it is taken: for a pixel that escapes, z·z is
    above 4, its logarithm in base 2 above 2 and the logarithm of that
    above 1, so that the smoothed value is below [iter + 3]. *)
Theorem double_logarithm_is_defined (u : inputs R) (fragCoord : vec2 R) :
  let z := fst (fractal u fragCoord) in
  let iter := snd (fractal u fragCoord) in
  let smooth := count iter - log2 (log2 (dot z z)) + 4 in
  (iter < 100)%nat →
  4 < dot z z ∧ 2 < log2 (dot z z) ∧ 1 < log2 (log2 (dot z z)) ∧
  smooth < INR iter + 3.
Proof.
  intros z iter smooth Hlt.
  pose proof (loop_from (parameter u) (plane u fragCoord)) as Hloop.
  cbv zeta in Hloop. destruct Hloop as (_ & _ & Hstop & _).
  destruct (Hstop Hlt) as [Hesc Hz].
  assert (4 < dot z z) as Hfar.
  { apply escaped_far. unfold z, fractal. rewrite Hz. exact Hesc. }
  clear Hesc Hz Hstop. unfold smooth. clear smooth.
  set (d := dot z z) in *. clearbody d.
  change (log2 (log2 d)) with (ln (ln d / ln 2) / ln 2).
  change (log2 d) with (ln d / ln 2).
  assert (0 < ln 2) as Hln2 by (pose proof ln_lt_2; lra).
  assert (ln 4 = 2 * ln 2) as Hln4.
  { replace 4 with (2 * 2) by lra. rewrite ln_mult by lra. lra. }
  assert (2 < ln d / ln 2) as Hlog.
  { apply (Rmult_lt_reg_r (ln 2)); [done|].
    replace (ln d / ln 2 * ln 2) with (ln d) by (field; lra).
    rewrite <- Hln4. apply ln_increasing; lra. }
  assert (1 < ln (ln d / ln 2) / ln 2) as Hlog2.
  { apply (Rmult_lt_reg_r (ln 2)); [done|].
    replace (ln (ln d / ln 2) / ln 2 * ln 2) with (ln (ln d / ln 2))
      by (field; lra).
    rewrite Rmult_1_l. apply ln_increasing; lra. }
  split; [done|]. split; [done|]. split; [done|].
  assert (count iter = INR iter) as ->; [|change (sub ?a ?b) with (a - b); lra].
  unfold count. change (lit ?q) with (Q2R q). unfold Q2R. simpl.
  by rewrite <- INR_IZR_INZ, Rinv_1, Rmult_1_r.
Qed.

Lemma double_logarithm_is_defined_witness :
  let u := script_inputs (Vec2 2 2) (Vec2 1 1) 0 in
  let z := fst (fractal u (Vec2 10 1)) in
  let iter := snd (fractal u (Vec2 10 1)) in
  let smooth := count iter - log2 (log2 (dot z z)) + 4 in
  (iter < 100)%nat ∧
  4 < dot z z ∧ 2 < log2 (dot z z) ∧ 1 < log2 (log2 (dot z z)) ∧
  smooth < INR iter + 3.
Proof.
  intros u z iter smooth.
  assert (iter < 100)%nat as Hlt.
  { unfold iter, fractal, max_iter. rewrite iterate_first; [simpl; lia|].
    apply far_escaped. unfold dot. simpl. unfold Q2R. simpl.
    match goal with
    | |- context [Rtrigo_def.sin ?a] => pose proof (SIN_bound a)
    end.
    set (s := Rtrigo_def.sin _) in *. set (c := Rtrigo_def.cos _) in *.
    set (re := _ - _ + _).
    assert (125 <= re) by (unfold re; lra).
    clearbody re.
    assert (∀ a b : R, 125 <= a → 4 < a * a + b * b) as Hsum
      by (intros; nra).
    by apply Hsum. }
  split; [exact Hlt|].
  exact (double_logarithm_is_defined u (Vec2 10 1) Hlt).
Defined.

End Exact.

(** ** The geometry *)

Lemma of_double_one : Ideal.of_double 1 = 1%R.
Proof.
  unfold Ideal.of_double.
  replace (Prim2SF 1) with (S754_finite false 4503599627370496 (-52))
    by (vm_compute; reflexivity).
  simpl. lra.
Qed.

Lemma of_double_minus_one : Ideal.of_double (-1) = (-1)%R.
Proof.
  unfold Ideal.of_double.
  replace (Prim2SF (-1)) with (S754_finite true 4503599627370496 (-52))
    by (vm_compute; reflexivity).
  simpl. lra.
Qed.

(** The two triangles the class and the script draw. *)
Lemma quad_triangles :
  Vertex.drawArrays quad 0 6
  = [ ((-1, -1), (1, -1), (-1, 1)); ((-1, 1), (1, -1), (1, 1)) ]%R ∧
  Vertex.drawArrays Script.positions 0 6 = Vertex.drawArrays quad 0 6.
Proof.
  split; [|done].
  unfold Vertex.drawArrays, quad. cbn [Vertex.attributes drop take fmap
    list_fmap Vertex.assemble compose Vertex.main Vertex.device
    Shader.x Shader.y].
  rewrite of_double_one, of_double_minus_one.
  change (Shader.lit 1) with (Q2R 1).
  replace (Q2R 1) with 1%R by (unfold Q2R; simpl; lra).
  replace (-1 / 1)%R with (-1)%R by lra.
  replace (1 / 1)%R with 1%R by lra.
  done.
Qed.

(** X21.  The draw call of every pass covers the whole surface: the buffer
    uploaded by [createBuffer] (and the one of the script), read two floats
    per vertex and drawn as the triangles of six vertices through the
    vertex program, reaches every point of the square from -1 to 1 of the
    surface, so that no pixel is left without a colour. *)
Theorem quad_covers_the_surface (p : R * R) :
  (-1 <= p.1 <= 1)%R → (-1 <= p.2 <= 1)%R →
  Exists (Vertex.inside p) (Vertex.drawArrays quad 0 6) ∧
  Exists (Vertex.inside p) (Vertex.drawArrays Script.positions 0 6).
Proof.
  intros Hx Hy. destruct quad_triangles as [Hquad ->]. rewrite Hquad.
  assert (Exists (Vertex.inside p)
            [ ((-1, -1), (1, -1), (-1, 1)); ((-1, 1), (1, -1), (1, 1)) ]%R);
    [|done].
  destruct p as [px py]. simpl in Hx, Hy.
  destruct (Rle_dec (px + py) 0) as [Hlow|Hhigh].
  - apply Exists_cons_hd. left. unfold Vertex.edge. simpl. lra.
  - apply Exists_cons_tl, Exists_cons_hd. left. unfold Vertex.edge. simpl.
    lra.
Qed.

Lemma quad_covers_the_surface_witness :
  Exists (Vertex.inside (1 / 2, - (1 / 4))%R) (Vertex.drawArrays quad 0 6) ∧
  Exists (Vertex.inside (1 / 2, - (1 / 4))%R)
    (Vertex.drawArrays Script.positions 0 6).
Proof.
  apply (quad_covers_the_surface (1 / 2, - (1 / 4))%R); simpl; lra.
Defined.

(** ** More on the configuration *)

(** X19.  Whatever the caller supplies, the four options resolved with
    [||] are truthy: the speed and the strength are never 0 or NaN, and no
    colour is ever undefined, null or an empty string.  (A truthy value of
    the wrong type is kept as it is.) *)
Theorem resolved_options_are_truthy options cfg :
  configured options = Some cfg →
  truthy (start (colors cfg)) = true ∧
  truthy (end_ (colors cfg)) = true ∧
  truthy (strength (interaction cfg)) = true ∧
  truthy (speed (animation cfg)) = true.
Proof.
  intros Hcfg. rewrite (configured_inv _ _ Hcfg).
  cbn [colors interaction animation start end_ strength speed].
  unfold Js.or.
  split_and!;
    match goal with
    | |- truthy (if truthy ?v then _ else _) = true =>
        destruct (truthy v) eqn:Hv; [exact Hv|reflexivity]
    end.
Qed.

Lemma resolved_options_are_truthy_witness :
  ∃ cfg, configured zero_options = Some cfg ∧
         truthy (start (colors cfg)) = true ∧
         truthy (end_ (colors cfg)) = true ∧
         truthy (strength (interaction cfg)) = true ∧
         truthy (speed (animation cfg)) = true.
Proof.
  eexists. split; [reflexivity|].
  exact (resolved_options_are_truthy zero_options _ eq_refl).
Defined.

(** ** The script on a page without its canvas *)

Lemma script_dispatch_unheard h e s :
  script_unheard s →
  let s' := Script.dispatch h e s in
  script_unheard s' ∧
  Script.alerts s' = Script.alerts s ∧
  quiet (Script.page s') = quiet (Script.page s) ∧
  (width (Script.page s'), height (Script.page s'))
  = (width (Script.page s), height (Script.page s)).
Proof.
  intros (Hr & Hm & Hf). destruct e as [iw ih|x y|t]; simpl.
  - rewrite Hr. by destruct s as [[] ? ? ? ? ?].
  - by rewrite Hm.
  - by rewrite Hf.
Qed.

Lemma script_run_unheard h es s :
  script_unheard s →
  let s' := Script.run h es s in
  script_unheard s' ∧
  Script.alerts s' = Script.alerts s ∧
  quiet (Script.page s') = quiet (Script.page s) ∧
  (width (Script.page s'), height (Script.page s'))
  = (width (Script.page s), height (Script.page s)).
Proof.
  revert s. induction es as [|e es IH]; intros s Hs; [done|].
  cbv zeta. rewrite script_run_cons.
  destruct (script_dispatch_unheard h e s Hs) as (Hs' & Ha & Hq & Hc).
  destruct (IH _ Hs') as (Hs'' & Ha' & Hq' & Hc').
  split_and!; [done|congruence..].
Qed.

(** X20.  The script does not check that the canvas exists: on a page
    without an element [fractal-canvas] its second line throws a TypeError,
    nothing is shown or logged, no listener is registered, and the page
    stays as it is under every later notification. *)
Theorem script_without_canvas h log iw ih es :
  element h "fractal-canvas" = false →
  let s := Script.run h es (Script.start h log iw ih) in
  uncaught (Script.page s) = ["TypeError"] ∧
  Script.alerts s = [] ∧
  console (Script.page s) = [] ∧
  Gl.trace (gl (Script.page s)) = [] ∧
  script_unheard s ∧
  (width (Script.page s), height (Script.page s)) = (300, 150)%float.
Proof.
  intros Hmissing s.
  assert (Script.start h log iw ih =
          Script.with_page (with_uncaught ["TypeError"] (load iw ih 0))
            (Script.load iw ih)) as Hs0.
  { unfold Script.start, Script.script. by rewrite Hmissing. }
  destruct (script_run_unheard h es (Script.start h log iw ih))
    as (Hs & Ha & Hq & Hc); [by rewrite Hs0|].
  fold s in Hs, Ha, Hq, Hc. rewrite Hs0 in Ha, Hq, Hc.
  injection Hq as Hcon Hun Hgl.
  rewrite Hun, Ha, Hcon, Hgl, Hc. by split_and!.
Qed.

Lemma script_without_canvas_witness :
  let s := Script.run no_canvas [Script.Resized 1024 768; Script.Frame 16]
             (Script.start no_canvas "" 800 600) in
  uncaught (Script.page s) = ["TypeError"] ∧
  Script.alerts s = [] ∧
  console (Script.page s) = [] ∧
  Gl.trace (gl (Script.page s)) = [] ∧
  script_unheard s ∧
  (width (Script.page s), height (Script.page s)) = (300, 150)%float.
Proof.
  apply (script_without_canvas no_canvas "" 800 600
           [Script.Resized 1024 768; Script.Frame 16]).
  reflexivity.
Defined.

(** ** The demo page *)

(** The demo asks for the default configuration, but for the speed. *)
Example demo_configuration :
  configured demo_options =
  Some {| colors := colors default_config;
          interaction := interaction default_config;
          animation := {| speed := VNum 1.5 |} |}.
Proof. reflexivity. Qed.

Example demo_first_frame :
  let w := construct browser "fractal-canvas" demo_options
             (load 800 600 0) in
  Gl.draw_calls (gl w) = 1 ∧ uncaught w = [] ∧ console w = [] ∧
  (λ f, f !! "u_speed") <$> Gl.frames (gl w) = [Some [VNum 1.5]].
Proof. vm_compute. by split_and!. Qed.
